(** * organize_downloads.py: classification and conflict-safe relocation

    A shallow embedding of [macbook/organize_downloads.py].

    Conventions of the model.
    - A Python [str] is the [string] of its UTF-8 bytes.  [str.lower]
      maps ['A'..'Z'] to ['a'..'z'] and the Kelvin sign U+212A (bytes
      226 132 170) to ['k']: these are the code points whose lowercase
      is ASCII.  The lowercase of every other code point has a
      character beyond ASCII; [Str.lower] leaves the bytes of such a
      code point as they are, which decides every comparison with the
      ASCII keys of [TYPES] as the program does.  A dot is one byte, so
      [rfind], slicing and [startswith] on bytes cut a name where the
      program cuts it.
    - A [Path] is the list of its components below the filesystem root.
      A name is one component, as [Path.name] and [iterdir] produce
      them ([Path.component]); [d /: name] adds it to [d].  What
      pathlib makes of a name that is no component (an empty one, a
      dot, one with a slash) is outside the model.
    - The filesystem is a finite map from paths to nodes.  [Path.exists],
      [Path.is_dir], [Path.mkdir] and [shutil.move] are modelled as
      operations on that map.
    - [print] appends a line to the console, tagged with its stream.
    - The [while True] loop of [unique_target] is bounded by a fuel
      argument; running out of fuel is a result of its own, never an
      answer of the program. *)

From Stdlib Require Import ZArith Ascii String.
From stdpp Require Import gmap strings list fin_maps pretty.

Local Open Scope string_scope.
Local Open Scope list_scope.

(** ** Strings *)

Module Str.
Local Open Scope Z_scope.

(** [str.lower] on one byte: ['A'..'Z'] go to ['a'..'z']. *)
Definition lower_ascii (c : ascii) : ascii :=
  let n := N_of_ascii c in
  if ((65 <=? n) && (n <=? 90))%N then ascii_of_N (n + 32) else c.

(** The three bytes of the Kelvin sign U+212A, whose lowercase is
    ['k']. *)
Definition is_kelvin (c1 c2 c3 : ascii) : bool :=
  Ascii.eqb c1 "226" && Ascii.eqb c2 "132" && Ascii.eqb c3 "170".

(** [s.lower()] *)
Fixpoint lower (s : string) : string :=
  match s with
  | EmptyString => EmptyString
  | String c1 s1 =>
      match s1 with
      | String c2 (String c3 s3) =>
          if is_kelvin c1 c2 c3 then String "k" (lower s3)
          else String (lower_ascii c1) (lower s1)
      | _ => String (lower_ascii c1) (lower s1)
      end
  end.

(** [s.rfind(c)]: the highest index of [c] in [s], or [-1]. *)
Fixpoint rfind (c : ascii) (s : string) : Z :=
  match s with
  | EmptyString => -1
  | String a s' =>
      let r := rfind c s' in
      if 0 <=? r then r + 1
      else if Ascii.eqb a c then 0 else -1
  end.

(** [len(s)] as a Python int. *)
Definition len (s : string) : Z := Z.of_nat (String.length s).

(** [s[i:]] for [0 <= i]. *)
Definition slice_from (i : Z) (s : string) : string :=
  let k := Z.to_nat i in substring k (String.length s - k) s.

(** [s[:i]] for [0 <= i]. *)
Definition slice_to (i : Z) (s : string) : string :=
  substring 0 (Z.to_nat i) s.

(** [s.startswith(c)] for a one-character prefix. *)
Definition startswith (c : ascii) (s : string) : bool :=
  match s with
  | String a _ => Ascii.eqb a c
  | EmptyString => false
  end.

(** Truthiness of a string: non-empty. *)
Definition truthy (s : string) : bool :=
  match s with EmptyString => false | _ => true end.

End Str.

(** ** Configuration: extension -> folder name *)

Definition TYPES : gmap string string :=
  list_to_map
    [ ("mp4", "Videos"); ("mkv", "Videos"); ("mov", "Videos"); ("avi", "Videos");
      ("flv", "Videos"); ("wmv", "Videos"); ("m4v", "Videos");
      ("jpg", "Images"); ("jpeg", "Images"); ("png", "Images"); ("gif", "Images");
      ("webp", "Images"); ("heic", "Images"); ("svg", "Images"); ("bmp", "Images");
      ("tif", "Images"); ("tiff", "Images");
      ("pdf", "PDFs");
      ("doc", "Documents"); ("docx", "Documents"); ("xls", "Documents");
      ("xlsx", "Documents"); ("ppt", "Documents"); ("pptx", "Documents");
      ("txt", "Documents"); ("md", "Documents"); ("rtf", "Documents");
      ("zip", "Archives"); ("tar", "Archives"); ("gz", "Archives"); ("tgz", "Archives");
      ("bz2", "Archives"); ("rar", "Archives"); ("7z", "Archives");
      ("dmg", "Apps"); ("pkg", "Apps"); ("exe", "Apps"); ("apk", "Apps");
      ("py", "Code"); ("js", "Code"); ("java", "Code"); ("class", "Code"); ("jar", "Code");
      ("mp3", "Audio"); ("wav", "Audio"); ("flac", "Audio"); ("m4a", "Audio") ].

Definition DEFAULT_FOLDER : string := "Other".

(** [TYPES.get(ext.lower(), DEFAULT_FOLDER)] *)
Definition folder_for_ext (ext : string) : string :=
  default DEFAULT_FOLDER (TYPES !! Str.lower ext).

(** ** Paths (pathlib) *)

Abbreviation path := (list string).

Module Path.
Local Open Scope Z_scope.

(** A byte a file name may hold: any but the slash and NUL. *)
Definition plain (c : ascii) : bool :=
  negb (Ascii.eqb c "/") && negb (Ascii.eqb c "000").

(** Is [name] one component of a path, as [Path.name] and [iterdir]
    give them: not empty, not a dot or two, without a slash or a NUL? *)
Definition component (name : string) : bool :=
  negb (String.eqb name "") && negb (String.eqb name ".")
  && negb (String.eqb name "..")
  && forallb plain (list_ascii_of_string name).

(** [p / name] for a single component [name]. *)
Definition child (p : path) (name : string) : path := p ++ [name].

(** [p.name]: the final component, empty for the root. *)
Definition name (p : path) : string := List.last p "".

(** [p.parent]; the root is its own parent. *)
Definition parent (p : path) : path := removelast p.

(** [p.suffix]: the last dot splits the name unless it is the first
    or the last character. *)
Definition suffix (p : path) : string :=
  let name := name p in
  let i := Str.rfind "." name in
  if (0 <? i) && (i <? Str.len name - 1) then Str.slice_from i name else "".

(** [p.stem]: the name without its suffix. *)
Definition stem (p : path) : string :=
  let name := name p in
  let i := Str.rfind "." name in
  if (0 <? i) && (i <? Str.len name - 1) then Str.slice_to i name else name.

(** ["/".join(parts)] *)
Fixpoint join (parts : list string) : string :=
  match parts with
  | [] => ""
  | [a] => a
  | a :: rest => a +:+ "/" +:+ join rest
  end.

(** [str(p)] for an absolute path. *)
Definition str (p : path) : string := "/" +:+ join p.

(** [p.relative_to(base)]: the components of [p] below [base];
    [None] stands for the [ValueError] raised when [base] is not a
    prefix of [p]. *)
Fixpoint relative_to (p base : path) {struct base} : option (list string) :=
  match base, p with
  | [], _ => Some p
  | b :: base', a :: p' =>
      if String.eqb a b then relative_to p' base' else None
  | _ :: _, [] => None
  end.

(** [str] of a relative path; the empty one prints as a dot. *)
Definition str_rel (parts : list string) : string :=
  match parts with [] => "." | _ => join parts end.

End Path.

Infix "/:" := Path.child (at level 40, left associativity).

(** ** The filesystem *)

Inductive node : Type :=
  | File (data : string)
  | Dir.

#[global] Instance node_eq_dec : EqDecision node.
Proof. solve_decision. Defined.

Abbreviation fsys := (gmap (list string) node).

Module FS.

(** [p.exists()] *)
Definition path_exists (fs : fsys) (p : path) : bool :=
  match fs !! p with Some _ => true | None => false end.

(** [p.is_dir()] *)
Definition is_dir (fs : fsys) (p : path) : bool :=
  match fs !! p with Some Dir => true | _ => false end.

(** Every entry other than the root sits in a directory. *)
Definition wf (fs : fsys) : Prop :=
  ∀ p, is_Some (fs !! p) → p ≠ [] → fs !! Path.parent p = Some Dir.

(** [l] is an enumeration of the children of [d], each once, in some
    order: what [d.iterdir()] may yield. *)
Definition listing (fs : fsys) (d : path) (l : list string) : Prop :=
  NoDup l ∧ ∀ n, n ∈ l ↔ is_Some (fs !! (d /: n)).

End FS.

(** ** Effects: filesystem state, console output, exceptions *)

Inductive stream : Type := stdout | stderr.

#[global] Instance stream_eq_dec : EqDecision stream.
Proof. solve_decision. Defined.

Record world : Type := World {
  files : gmap (list string) node;
  console : list (stream * string)
}.

Inductive exn : Type :=
  | FileNotFoundError
  | FileExistsError
  | NotADirectoryError
  | IsADirectoryError
  | OSError
  | ShutilError
  | ValueError.

Inductive res (A : Type) : Type :=
  | Ret (a : A)
  | Raise (e : exn)
  | OutOfFuel.
Arguments Ret {A} a.
Arguments Raise {A} e.
Arguments OutOfFuel {A}.

Definition M (A : Type) : Type := world → res A * world.

#[global] Instance M_ret : MRet M := λ A a w, (Ret a, w).

#[global] Instance M_bind : MBind M := λ A B k m w,
  match m w with
  | (Ret a, w') => k a w'
  | (Raise e, w') => (Raise e, w')
  | (OutOfFuel, w') => (OutOfFuel, w')
  end.

Definition raise {A} (e : exn) : M A := λ w, (Raise e, w).
Definition timeout {A} : M A := λ w, (OutOfFuel, w).
Definition get_files : M (gmap (list string) node) := λ w, (Ret (files w), w).
Definition put_files (fs : fsys) : M unit := λ w, (Ret tt, World fs (console w)).

(** [print(line, file=st)] *)
Definition print (st : stream) (line : string) : M unit := λ w,
  (Ret tt, World (files w) (console w ++ [(st, line)])).

(** [for x in xs: body(x)] *)
Fixpoint for_each {A} (xs : list A) (body : A → M unit) : M unit :=
  match xs with
  | [] => mret tt
  | x :: xs' => body x;; for_each xs' body
  end.

(** *** System calls on the map *)

Module Os.

(** [os.mkdir(p)]: one directory, whose parent has to be there. *)
Definition mkdir (fs : fsys) (p : path) : exn + fsys :=
  match fs !! p with
  | Some _ => inl FileExistsError
  | None =>
      match fs !! Path.parent p with
      | None => inl FileNotFoundError
      | Some (File _) => inl NotADirectoryError
      | Some Dir => inr (<[p := Dir]> fs)
      end
  end.

(** The entries of [fs] with the subtree at [src] moved to [dst]. *)
Definition reroot (src dst : path) (fs : fsys) : fsys :=
  list_to_map
    (prod_map
       (λ k : list string,
          if decide (src `prefix_of` k)
          then dst ++ drop (length src) k else k)
       id <$> map_to_list fs).

(** Does some entry live strictly below [p]? *)
Definition has_children (fs : fsys) (p : path) : bool :=
  bool_decide (Exists (λ k, p `prefix_of` k ∧ k ≠ p) (map_to_list fs).*1).

(** [os.rename(src, dst)] within one filesystem. *)
Definition rename (fs : fsys) (src dst : path) : exn + fsys :=
  match fs !! src with
  | None => inl FileNotFoundError
  | Some (File data) =>
      match fs !! Path.parent dst with
      | None => inl FileNotFoundError
      | Some (File _) => inl NotADirectoryError
      | Some Dir =>
          match fs !! dst with
          | Some Dir => inl IsADirectoryError
          | _ => inr (<[dst := File data]> (delete src fs))
          end
      end
  | Some Dir =>
      if decide (src = dst) then inr fs
      else if decide (src `prefix_of` dst) then inl OSError
      else
        match fs !! Path.parent dst with
        | None => inl FileNotFoundError
        | Some (File _) => inl NotADirectoryError
        | Some Dir =>
            match fs !! dst with
            | Some (File _) => inl NotADirectoryError
            | Some Dir =>
                if has_children fs dst then inl OSError
                else inr (reroot src dst (delete dst fs))
            | None => inr (reroot src dst fs)
            end
        end
  end.

End Os.

(** Run a system call: commit the new map or raise. *)
Definition syscall (call : fsys → exn + fsys) : M unit := λ w,
  match call (files w) with
  | inl e => (Raise e, w)
  | inr fs' => (Ret tt, World fs' (console w))
  end.

(** [p.mkdir(parents=True, exist_ok=True)], following pathlib: try
    [os.mkdir]; when the parent is missing make it first and retry; any
    other error is ignored exactly when [p] is a directory.  [depth]
    counts the components of [p] still to climb. *)
Fixpoint mkdir_parents (depth : nat) (p : path) : M unit :=
  fs ← get_files;
  match Os.mkdir fs p with
  | inr fs' => put_files fs'
  | inl FileNotFoundError =>
      match depth with
      | O => raise FileNotFoundError
      | S depth' =>
          if decide (Path.parent p = p) then raise FileNotFoundError
          else
            mkdir_parents depth' (Path.parent p);;
            fs1 ← get_files;
            match Os.mkdir fs1 p with
            | inr fs' => put_files fs'
            | inl FileNotFoundError => raise FileNotFoundError
            | inl e => if FS.is_dir fs1 p then mret tt else raise e
            end
      end
  | inl e => if FS.is_dir fs p then mret tt else raise e
  end.

Definition mkdir (p : path) : M unit := mkdir_parents (length p) p.

(** [shutil.move(src, dst)] on one filesystem: into [dst] when [dst]
    is a directory, onto [dst] otherwise.  The copy-and-delete fallback
    serves moves across devices; within one filesystem it fails where
    the rename does, so the rename's error is the outcome. *)
Definition shutil_move (src dst : path) : M unit :=
  fs ← get_files;
  if FS.is_dir fs dst then
    if decide (src = dst) then syscall (λ fs, Os.rename fs src dst)
    else
      let real_dst := dst /: Path.name src in
      if FS.path_exists fs real_dst then raise ShutilError
      else syscall (λ fs, Os.rename fs src real_dst)
  else syscall (λ fs, Os.rename fs src dst).

(** ** Helpers *)

(** [dest_dir / f"{stem} ({i}){suffix}"] *)
Definition candidate (dest_dir : path) (stem suffix : string) (i : nat)
    : list string :=
  dest_dir /: (stem +:+ " (" +:+ pretty i +:+ ")" +:+ suffix).

(** The loop of [unique_target]: probe the candidates from [i] up. *)
Fixpoint probe (fuel : nat) (fs : fsys) (dest_dir : path)
    (stem suffix : string) (i : nat) : option (list string) :=
  match fuel with
  | O => None
  | S fuel' =>
      if negb (FS.path_exists fs (candidate dest_dir stem suffix i))
      then Some (candidate dest_dir stem suffix i)
      else probe fuel' fs dest_dir stem suffix (S i)
  end.

(** If [dest_dir/name] exists, append [" (1)"], [" (2)"], ... before
    the extension.  [None]: the loop did not finish within [fuel]. *)
Definition unique_target (fuel : nat) (fs : fsys) (dest_dir : path)
    (name : string) : option (list string) :=
  let dest := dest_dir /: name in
  if negb (FS.path_exists fs dest) then Some dest
  else
    let stem := Path.stem dest in
    let suffix := Path.suffix dest in
    probe fuel fs dest_dir stem suffix 1.

(** [unique_target] against the current filesystem. *)
Definition unique_target_now (fuel : nat) (dest_dir : path) (name : string)
    : M (list string) :=
  fs ← get_files;
  match unique_target fuel fs dest_dir name with
  | Some p => mret p
  | None => timeout
  end.

(** [target_path.relative_to(downloads)], printed. *)
Definition relative_str (target_path downloads : path) : M string :=
  match Path.relative_to target_path downloads with
  | Some parts => mret (Path.str_rel parts)
  | None => raise ValueError
  end.

(** ** Main *)

(** The extension of [item] without its dot, lowercased. *)
Definition ext_of (item : path) : string :=
  if Str.truthy (Path.suffix item)
  then Str.lower (Str.slice_from 1 (Path.suffix item))
  else "".

(** The folder name chosen for [item]. *)
Definition folder_name_of (item : path) : string :=
  let ext := ext_of item in
  if Str.truthy ext then folder_for_ext ext else DEFAULT_FOLDER.

(** The body of the loop of [organize] for the entry called [name]. *)
Definition organize_item (fuel : nat) (downloads : path) (dry_run : bool)
    (name : string) : M unit :=
  let item := downloads /: name in
  fs ← get_files;
  if FS.is_dir fs item then mret tt
  else if Str.startswith "." (Path.name item) then mret tt
  else
    let folder_name := folder_name_of item in
    let target_dir := downloads /: folder_name in
    (if negb (FS.path_exists fs target_dir) then
       if dry_run then
         print stdout ("[DRY RUN] Would create folder: " +:+ Path.str target_dir)
       else
         mkdir target_dir;;
         print stdout ("Created folder: " +:+ Path.str target_dir)
     else mret tt);;
    target_path ← unique_target_now fuel target_dir (Path.name item);
    if dry_run then
      rel ← relative_str target_path downloads;
      print stdout ("[DRY RUN] Would move: " +:+ Path.name item +:+ " -> " +:+ rel)
    else
      shutil_move item target_path;;
      rel ← relative_str target_path downloads;
      print stdout ("Moved: " +:+ Path.name item +:+ " -> " +:+ rel).

(** [organize(downloads, dry_run)].  [entries] is the sequence of names
    that [downloads.iterdir()] yields; [fuel] bounds each run of the
    loop of [unique_target]. *)
Definition organize (fuel : nat) (entries : list string) (downloads : path)
    (dry_run : bool) : M Z :=
  fs ← get_files;
  if negb (FS.path_exists fs downloads) || negb (FS.is_dir fs downloads) then
    print stderr ("Error: not a directory: " +:+ Path.str downloads);;
    mret 1%Z
  else
    print stdout ((if dry_run then "DRY RUN: " else "") +:+ "Organizing: "
                  +:+ Path.str downloads);;
    for_each entries (organize_item fuel downloads dry_run);;
    print stdout "Done.";;
    mret 0%Z.

(** * Vocabulary of the properties *)

(** The names of the entries of [fs] directly below [d]. *)
Definition children (fs : gmap (list string) node) (d : list string)
    : list string :=
  omap (λ k, match Path.relative_to k d with
             | Some [n] => Some n
             | _ => None
             end)
       (elements (dom fs)).

(** The line that announces the creation of [target_dir]. *)
Definition would_create_line (target_dir : list string) : stream * string :=
  (stdout, "[DRY RUN] Would create folder: " +:+ Path.str target_dir).

(** How often [line] occurs in the output. *)
Definition count_line (line : stream * string)
    (out : list (stream * string)) : nat :=
  length (filter (λ l, l = line) out).

(** Is the entry [name] of [downloads] one the loop deals with: not a
    directory, not hidden? *)
Definition processed (fs : gmap (list string) node) (downloads : list string)
    (name : string) : bool :=
  negb (FS.is_dir fs (downloads /: name)) && negb (Str.startswith "." name).

(** The lines a live move prints. *)
Definition live_lines (downloads : list string)
    (fs : gmap (list string) node) (folder name name' : string)
    : list (stream * string) :=
  (if FS.path_exists fs (downloads /: folder) then []
   else [(stdout, "Created folder: " +:+ Path.str (downloads /: folder))])
  ++ [(stdout, "Moved: " +:+ name +:+ " -> " +:+ (folder +:+ "/" +:+ name'))].

(** The filesystem after the entry [name] has gone to [folder/name']. *)
Definition moved (downloads : list string) (fs : gmap (list string) node)
    (folder name name' data : string) : gmap (list string) node :=
  <[downloads /: folder /: name' := File data]>
    (delete (downloads /: name) (<[downloads /: folder := Dir]> fs)).

(** The filesystem once both files have gone to their folders. *)
Definition organized (root : list string) (fs : gmap (list string) node)
    (ca cb : string) : gmap (list string) node :=
  <[root /: "Images" /: "b.jpg" := File cb]>
    (<[root /: "Documents" /: "a.txt" := File ca]>
       (<[root /: "Images" := Dir]>
          (<[root /: "Documents" := Dir]>
             (delete (root /: "b.jpg") (delete (root /: "a.txt") fs))))).

(** Every visible regular file directly in [downloads] is among
    [remaining]. *)
Definition loose_files_in (downloads : list string)
    (fs : gmap (list string) node) (remaining : list string) : Prop :=
  ∀ n data, fs !! (downloads /: n) = Some (File data) →
            Str.startswith "." n = false → n ∈ remaining.

(** The folders the program files entries under. *)
Definition folder_names : list string :=
  ["Videos"; "Images"; "PDFs"; "Documents"; "Archives"; "Apps"; "Code";
   "Audio"; "Other"].

(** What a live run may do to a filesystem [fs], seen from the result
    [fs']: directories and everything not directly in [downloads] stay;
    a regular file directly in [downloads] stays or sits, with its
    content, in its folder under a name that was free; hidden entries
    are as before; nothing appears but folders directly in [downloads],
    each under one of the folder names, and directly in such a folder
    regular files that [downloads] held and files under that folder;
    no regular file appears or changes directly in [downloads]. *)
Definition kept (downloads : list string)
    (fs fs' : gmap (list string) node) : Prop :=
  (∀ p x, fs !! p = Some x → x = Dir ∨ (∀ n, p ≠ downloads /: n) →
          fs' !! p = Some x) ∧
  (∀ n data, fs !! (downloads /: n) = Some (File data) →
     fs' !! (downloads /: n) = Some (File data) ∨
     ∃ n', fs' !! (downloads /: folder_name_of [n] /: n') = Some (File data) ∧
           fs !! (downloads /: folder_name_of [n] /: n') = None ∧
           (n' = n ∨
            ∃ i, (1 ≤ i)%nat ∧
                 n' = Path.stem [n] +:+ " (" +:+ pretty i +:+ ")"
                      +:+ Path.suffix [n])) ∧
  (∀ n, Str.startswith "." n = true →
        fs' !! (downloads /: n) = fs !! (downloads /: n)) ∧
  (∀ p, (∀ n, p ≠ downloads /: n) → (∀ f n, p ≠ downloads /: f /: n) →
        fs' !! p = fs !! p) ∧
  (∀ n, fs !! (downloads /: n) = None →
        fs' !! (downloads /: n) = None ∨
        (fs' !! (downloads /: n) = Some Dir ∧ n ∈ folder_names)) ∧
  (∀ f n, fs !! (downloads /: f /: n) = None →
     fs' !! (downloads /: f /: n) = None ∨
     (f ∈ folder_names ∧ fs' !! (downloads /: f) = Some Dir ∧
      ∃ name data, fs !! (downloads /: name) = Some (File data) ∧
                   folder_name_of [name] = f ∧
                   fs' !! (downloads /: f /: n) = Some (File data))) ∧
  (∀ n data, fs' !! (downloads /: n) = Some (File data) →
             fs !! (downloads /: n) = Some (File data)).

(** The line that announces the move of [name] to [folder/name']. *)
Definition would_move_line (name folder name' : string) : stream * string :=
  (stdout, "[DRY RUN] Would move: " +:+ name +:+ " -> "
           +:+ (folder +:+ "/" +:+ name')).

(** Does [s] begin with the bytes of the Kelvin sign? *)
Definition kelvin_prefix (s : string) : bool :=
  match s with
  | String c1 (String c2 (String c3 _)) => Str.is_kelvin c1 c2 c3
  | _ => false
  end.

(** Is [c] the last character of [s]? *)
Fixpoint ends_with (c : ascii) (s : string) : bool :=
  match s with
  | EmptyString => false
  | String a EmptyString => Ascii.eqb a c
  | String _ s' => ends_with c s'
  end.

(** * Properties *)

(** ** Strings *)

Section string_facts.

Lemma lower_ascii_idemp (c : ascii) :
  Str.lower_ascii (Str.lower_ascii c) = Str.lower_ascii c.
Proof. by destruct c as [[] [] [] [] [] [] [] []]. Qed.

(** Lowercasing a byte neither makes nor unmakes a byte of the Kelvin
    sign. *)
Lemma is_kelvin_lower_ascii (c1 c2 c3 : ascii) :
  Str.is_kelvin (Str.lower_ascii c1) (Str.lower_ascii c2) (Str.lower_ascii c3)
  = Str.is_kelvin c1 c2 c3.
Proof.
  unfold Str.is_kelvin. f_equal; [f_equal|].
  - by destruct c1 as [[] [] [] [] [] [] [] []].
  - by destruct c2 as [[] [] [] [] [] [] [] []].
  - by destruct c3 as [[] [] [] [] [] [] [] []].
Qed.

Lemma lower_kelvin (s : string) :
  Str.lower (String "226" (String "132" (String "170" s)))
  = String "k" (Str.lower s).
Proof. reflexivity. Qed.

Lemma lower_cons (c : ascii) (s : string) :
  kelvin_prefix (String c s) = false →
  Str.lower (String c s) = String (Str.lower_ascii c) (Str.lower s).
Proof.
  intros H. destruct s as [|c2 [|c3 s3]]; try done.
  simpl in H. change (Str.lower (String c (String c2 (String c3 s3))))
    with (if Str.is_kelvin c c2 c3 then String "k" (Str.lower s3)
          else String (Str.lower_ascii c)
                 (Str.lower (String c2 (String c3 s3)))).
  by rewrite H.
Qed.

Lemma kelvin_prefix_true (s : string) :
  kelvin_prefix s = true →
  ∃ s3, s = String "226" (String "132" (String "170" s3)).
Proof.
  destruct s as [|c1 [|c2 [|c3 s3]]]; try done. simpl. unfold Str.is_kelvin.
  intros [[H1%Ascii.eqb_eq H2%Ascii.eqb_eq]%andb_prop H3%Ascii.eqb_eq]%andb_prop.
  subst. eauto.
Qed.

Lemma kelvin_prefix_head (c : ascii) (s : string) :
  Ascii.eqb c "226" = false → kelvin_prefix (String c s) = false.
Proof.
  intros H. destruct s as [|c2 [|c3 s3]]; try done.
  simpl. unfold Str.is_kelvin. by rewrite H.
Qed.

(** Induction along the way [Str.lower] reads a string. *)
Lemma lower_ind (P : string → Prop) :
  P "" →
  (∀ s, P s → P (String "226" (String "132" (String "170" s)))) →
  (∀ c s, kelvin_prefix (String c s) = false → P s → P (String c s)) →
  ∀ s, P s.
Proof.
  intros Hnil Hk Hc s.
  assert (∀ n s, (String.length s ≤ n)%nat → P s) as H; [|by eapply H].
  clear s. intros n. induction n as [|n IH]; intros s Hlen.
  { destruct s; [done|simpl in Hlen; lia]. }
  destruct s as [|c s]; [done|].
  destruct (kelvin_prefix (String c s)) eqn:K.
  - apply kelvin_prefix_true in K as [s3 K]. rewrite K in *. apply Hk, IH.
    simpl in Hlen. lia.
  - apply Hc; [done|]. apply IH. simpl in Hlen. lia.
Qed.

Lemma truthy_lower (s : string) : Str.truthy (Str.lower s) = Str.truthy s.
Proof.
  destruct s as [|c s]; [done|].
  destruct (kelvin_prefix (String c s)) eqn:K.
  - by apply kelvin_prefix_true in K as [s3 ->].
  - by rewrite lower_cons.
Qed.

(** The first byte of a lowercased string, unless it is a [k], is the
    lowercased first byte of the string. *)
Lemma lower_head (s : string) (x : ascii) (r : string) :
  Str.lower s = String x r → Ascii.eqb x "k" = false →
  ∃ c s', s = String c s' ∧ kelvin_prefix s = false
          ∧ x = Str.lower_ascii c ∧ r = Str.lower s'.
Proof.
  destruct s as [|c s]; [done|].
  destruct (kelvin_prefix (String c s)) eqn:K.
  - apply kelvin_prefix_true in K as [s3 K]. rewrite K, lower_kelvin.
    intros [= <- _]. done.
  - rewrite lower_cons by done. intros [= <- <-] _. eauto 6.
Qed.

(** A lowercased string does not begin with the Kelvin sign. *)
Lemma kelvin_prefix_lower (s : string) : kelvin_prefix (Str.lower s) = false.
Proof.
  destruct (kelvin_prefix (Str.lower s)) eqn:K; [exfalso|done].
  apply kelvin_prefix_true in K as [r3 K].
  apply lower_head in K as (c1 & s1 & -> & N1 & E1 & K); [|done].
  symmetry in K.
  apply lower_head in K as (c2 & s2 & -> & _ & E2 & K); [|done].
  symmetry in K.
  apply lower_head in K as (c3 & s3 & -> & _ & E3 & _); [|done].
  simpl in N1.
  by rewrite <- is_kelvin_lower_ascii, <- E1, <- E2, <- E3 in N1.
Qed.

Lemma lower_idemp (s : string) : Str.lower (Str.lower s) = Str.lower s.
Proof.
  induction s as [|s IH|c s K IH] using lower_ind; [done| |].
  - rewrite lower_kelvin, lower_cons by (by apply kelvin_prefix_head).
    by rewrite IH.
  - pose proof (kelvin_prefix_lower (String c s)) as K'.
    rewrite lower_cons in * by done. rewrite lower_cons by done.
    by rewrite lower_ascii_idemp, IH.
Qed.

Lemma string_app_cons (c : ascii) (s t : string) :
  String c s +:+ t = String c (s +:+ t).
Proof. reflexivity. Qed.

Lemma string_app_nil_l (t : string) : "" +:+ t = t.
Proof. reflexivity. Qed.

Lemma string_app_nil_r (s : string) : s +:+ "" = s.
Proof.
  induction s as [|c s IH]; [done|]. by rewrite string_app_cons, IH.
Qed.

Lemma string_app_assoc (s1 s2 s3 : string) :
  (s1 +:+ s2) +:+ s3 = s1 +:+ (s2 +:+ s3).
Proof.
  induction s1 as [|c s1 IH]; [done|].
  by rewrite !string_app_cons, IH.
Qed.

Lemma string_app_length (s1 s2 : string) :
  String.length (s1 +:+ s2) = (String.length s1 + String.length s2)%nat.
Proof.
  induction s1 as [|c s1 IH]; [done|].
  rewrite string_app_cons. simpl. by rewrite IH.
Qed.

(** Equal concatenations with the same tail have equal heads. *)
Lemma string_app_inj_r (s1 s2 t : string) :
  s1 +:+ t = s2 +:+ t → s1 = s2.
Proof.
  intros E.
  assert (String.length s1 = String.length s2) as Hlen.
  { apply (f_equal String.length) in E.
    rewrite !string_app_length in E. lia. }
  revert s2 E Hlen.
  induction s1 as [|c s1 IH]; intros [|c' s2] E Hlen;
    simpl in Hlen; try done.
  rewrite !string_app_cons in E.
  injection E as -> E. f_equal. apply IH; [done|lia].
Qed.

End string_facts.

(** ** The classifier *)

(** No key of the table is given twice, so the table read as a map is
    the table as written. *)
Lemma TYPES_size : size TYPES = 47%nat.
Proof. by vm_compute. Qed.

(** C6: an extension whose lowercasing is a key of [TYPES] is filed
    under the folder configured for that key, and so is its lowercasing:
    the lookup does not depend on letter case. *)
Theorem folder_for_ext_case_insensitive (e category : string) :
  TYPES !! Str.lower e = Some category →
  folder_for_ext e = folder_for_ext (Str.lower e) ∧
  folder_for_ext e = category ∧
  folder_for_ext (Str.lower e) = category.
Proof.
  intros Hkey. unfold folder_for_ext.
  rewrite lower_idemp, Hkey. done.
Qed.

Lemma folder_for_ext_case_insensitive_witness :
  TYPES !! Str.lower "JpEg" = Some "Images" ∧
  folder_for_ext "JpEg" = folder_for_ext (Str.lower "JpEg") ∧
  folder_for_ext "JpEg" = "Images" ∧
  folder_for_ext (Str.lower "JpEg") = "Images".
Proof.
  split; [by vm_compute|].
  apply (folder_for_ext_case_insensitive "JpEg" "Images"). by vm_compute.
Defined.

(** The same holds for any lowercasing that leaves the keys of
    [TYPES] alone, as [str.lower] does beyond ASCII too, the keys being
    lowercase ASCII: the property does not hinge on how much of Unicode
    [Str.lower] covers. *)
Section any_lower.

Variable lower : string → string.
Hypothesis lower_fixes_keys : ∀ k, is_Some (TYPES !! k) → lower k = k.

Lemma lookup_case_insensitive_any (e category : string) :
  TYPES !! lower e = Some category →
  default DEFAULT_FOLDER (TYPES !! lower e) = category ∧
  default DEFAULT_FOLDER (TYPES !! lower (lower e)) = category.
Proof.
  intros Hkey. rewrite (lower_fixes_keys (lower e)) by (by rewrite Hkey).
  by rewrite Hkey.
Qed.

End any_lower.

(** Whatever the extension, the answer is the default or the folder
    configured for the lowercased extension: there is no other outcome. *)
Lemma folder_for_ext_range (e : string) :
  folder_for_ext e = DEFAULT_FOLDER ∨
  TYPES !! Str.lower e = Some (folder_for_ext e).
Proof.
  unfold folder_for_ext. destruct (TYPES !! Str.lower e); simpl; auto.
Qed.

(** Every folder of the table is one of the folder names, and none is
    the default folder. *)
Lemma TYPES_values :
  map_Forall (λ _ v, v ∈ folder_names ∧ v ≠ DEFAULT_FOLDER) TYPES.
Proof.
  apply map_Forall_to_list. vm_compute.
  repeat (constructor; [split; [|congruence]|]); try constructor.
  all: repeat first [apply list_elem_of_here | apply list_elem_of_further].
Qed.

(** C7: an extension whose lowercasing is not a key of [TYPES] is filed
    under [DEFAULT_FOLDER].  [folder_for_ext] answers on every string:
    the answer is the folder the table gives for the lowercased
    extension or else the default, and it is one of the nine folder
    names.  It is a function of the extension alone: [ext.lower()] and
    [dict.get] with a default read no state and raise nothing on a
    [str], so the call is a plain function from strings to strings. *)
Theorem folder_for_ext_default (e : string) :
  (TYPES !! Str.lower e = None → folder_for_ext e = DEFAULT_FOLDER) ∧
  (TYPES !! Str.lower e = None ∨
   TYPES !! Str.lower e = Some (folder_for_ext e)) ∧
  folder_for_ext e ∈ folder_names.
Proof.
  unfold folder_for_ext.
  destruct (TYPES !! Str.lower e) as [v|] eqn:E; simpl.
  - split_and!; [done|by right|]. by destruct (TYPES_values _ _ E).
  - split_and!; [done|by left|].
    by repeat first [apply list_elem_of_here | apply list_elem_of_further].
Qed.

(** The empty extension is such an input. *)
Lemma folder_for_ext_default_witness :
  TYPES !! Str.lower "" = None ∧ folder_for_ext "" = DEFAULT_FOLDER.
Proof.
  split; [by vm_compute|].
  apply (proj1 (folder_for_ext_default "")). by vm_compute.
Defined.

(** An extension written with the Kelvin sign for its [k] is filed as
    the program files it. *)
Example folder_for_ext_kelvin :
  folder_for_ext (String "M" (String "226" (String "132" (String "170" "V"))))
  = "Videos".
Proof. reflexivity. Qed.

Example folder_name_of_kelvin :
  folder_name_of
    ["movie." +:+ String "M" (String "226" (String "132" (String "170" "V")))]
  = "Videos".
Proof. reflexivity. Qed.

(** ** Names: stem and suffix *)

Section split_name.

Lemma substring_all (s : string) : substring 0 (String.length s) s = s.
Proof. induction s as [|c s IH]; simpl; [done|by rewrite IH]. Qed.

Lemma substring_split (k : nat) (s : string) :
  (k ≤ String.length s)%nat →
  substring 0 k s +:+ substring k (String.length s - k) s = s.
Proof.
  revert k. induction s as [|c s IH]; intros [|k] Hk; simpl in *;
    try done; try lia.
  - by rewrite string_app_nil_l, substring_all.
  - rewrite string_app_cons. f_equal. apply IH. lia.
Qed.

Lemma rfind_lt (c : ascii) (s : string) : (Str.rfind c s < Str.len s)%Z.
Proof.
  unfold Str.len. induction s as [|a s IH]; simpl; [lia|].
  destruct (0 <=? Str.rfind c s)%Z; [lia|].
  destruct (Ascii.eqb a c); lia.
Qed.

(** The slice taken at the index [rfind] reports begins with the
    character looked for. *)
Lemma slice_from_rfind (c : ascii) (s : string) :
  (0 ≤ Str.rfind c s)%Z →
  ∃ t, Str.slice_from (Str.rfind c s) s = String c t.
Proof.
  unfold Str.slice_from.
  induction s as [|a s IH]; simpl; [lia|].
  destruct (Z.leb_spec 0 (Str.rfind c s)) as [Hr|Hr].
  - intros _. destruct (IH Hr) as [t Ht].
    replace (Z.to_nat (Str.rfind c s + 1)) with (S (Z.to_nat (Str.rfind c s)))
      by lia.
    simpl. eauto.
  - destruct (Ascii.eqb_spec a c) as [->|]; [|lia].
    intros _. simpl. eauto.
Qed.

Lemma name_child (d : path) (name : string) : Path.name (d /: name) = name.
Proof. unfold Path.name, Path.child. apply List.last_last. Qed.

Lemma parent_child (d : path) (name : string) : Path.parent (d /: name) = d.
Proof. unfold Path.parent, Path.child. apply List.removelast_last. Qed.

(** Stem and suffix put together give the name back. *)
Lemma stem_suffix (p : path) : Path.stem p +:+ Path.suffix p = Path.name p.
Proof.
  unfold Path.stem, Path.suffix.
  set (name := Path.name p). pose proof (rfind_lt "." name) as Hlt.
  destruct (_ && _) eqn:E; [|apply string_app_nil_r].
  apply andb_prop in E as [H0 H1].
  apply Z.ltb_lt in H0. unfold Str.slice_to, Str.slice_from.
  apply substring_split. unfold Str.len in Hlt. lia.
Qed.

(** The suffix is empty or begins with a dot. *)
Lemma suffix_dot (p : path) :
  Path.suffix p = "" ∨ ∃ t, Path.suffix p = String "." t.
Proof.
  unfold Path.suffix. destruct (_ && _) eqn:E; [|by left].
  right. apply andb_prop in E as [H0 _]. apply Z.ltb_lt in H0.
  apply slice_from_rfind. lia.
Qed.

(** The split on some names. *)
Example split_two_dots :
  (Path.stem ["archive.tar.gz"], Path.suffix ["archive.tar.gz"])
  = ("archive.tar", ".gz").
Proof. reflexivity. Qed.

Example split_leading_dot :
  (Path.stem [".bashrc"], Path.suffix [".bashrc"]) = (".bashrc", "").
Proof. reflexivity. Qed.

Example split_trailing_dot :
  (Path.stem ["notes."], Path.suffix ["notes."]) = ("notes.", "").
Proof. reflexivity. Qed.

Example split_no_dot :
  (Path.stem ["Makefile"], Path.suffix ["Makefile"]) = ("Makefile", "").
Proof. reflexivity. Qed.

End split_name.

(** ** Names as path components *)

Section components.

Lemma list_ascii_app (a b : string) :
  list_ascii_of_string (a +:+ b)
  = list_ascii_of_string a ++ list_ascii_of_string b.
Proof.
  induction a as [|x a IH]; [done|].
  rewrite string_app_cons. simpl. by rewrite IH.
Qed.

Lemma plain_app (a b : string) :
  forallb Path.plain (list_ascii_of_string (a +:+ b))
  = forallb Path.plain (list_ascii_of_string a)
    && forallb Path.plain (list_ascii_of_string b).
Proof. by rewrite list_ascii_app, forallb_app. Qed.

Lemma pretty_N_char_plain (x : N) : Path.plain (pretty_N_char x) = true.
Proof. unfold pretty_N_char. by repeat case_match. Qed.

Lemma pretty_N_go_plain (x : N) (s : string) :
  forallb Path.plain (list_ascii_of_string s) = true →
  forallb Path.plain (list_ascii_of_string (pretty_N_go x s)) = true.
Proof.
  revert s. induction (N.lt_wf_0 x) as [x _ IH]; intros s Hs.
  assert (x = 0 ∨ 0 < x)%N as [->|Hx] by lia.
  - by rewrite pretty_N_go_0.
  - rewrite pretty_N_go_step by done. apply IH.
    + by apply N.div_lt.
    + simpl. by rewrite pretty_N_char_plain, Hs.
Qed.

(** A number in decimal holds digits only. *)
Lemma pretty_nat_plain (i : nat) :
  forallb Path.plain (list_ascii_of_string (pretty i)) = true.
Proof.
  unfold pretty, pretty_nat, pretty, pretty_N.
  destruct (decide _); [done|]. by apply pretty_N_go_plain.
Qed.

Lemma component_plain (name : string) :
  Path.component name = true →
  forallb Path.plain (list_ascii_of_string name) = true.
Proof. unfold Path.component. by intros [_ ?]%andb_prop. Qed.

(** Three plain bytes or more make a component. *)
Lemma component_long (s : string) :
  (3 ≤ String.length s)%nat →
  forallb Path.plain (list_ascii_of_string s) = true →
  Path.component s = true.
Proof.
  intros Hlen Hs. unfold Path.component. rewrite Hs.
  destruct s as [|a [|b [|c s]]]; simpl in Hlen; try lia.
  simpl. destruct (Ascii.eqb a "."), (Ascii.eqb b "."); done.
Qed.

(** The names [unique_target] tries for a component are components:
    each probe is of a path directly in [dest_dir]. *)
Lemma candidate_component (name : string) (i : nat) :
  Path.component name = true →
  Path.component (Path.stem [name] +:+ " (" +:+ pretty i +:+ ")"
                  +:+ Path.suffix [name]) = true.
Proof.
  intros Hname%component_plain.
  pose proof (stem_suffix [name]) as E.
  change (Path.name [name]) with name in E.
  rewrite <- E, plain_app in Hname. apply andb_prop in Hname as [Hstem Hsuf].
  apply component_long.
  - rewrite !string_app_length. simpl. lia.
  - rewrite !plain_app, Hstem, Hsuf, pretty_nat_plain. done.
Qed.

End components.

(** ** Collision resolution *)

Section unique_target_facts.

Variable fs : gmap (list string) node.
Variable dest_dir : list string.
Variables stem suffix : string.

Local Abbreviation cand := (candidate dest_dir stem suffix).

Lemma path_exists_true (p : list string) :
  FS.path_exists fs p = true ↔ is_Some (fs !! p).
Proof.
  unfold FS.path_exists. destruct (fs !! p); split; intros H;
    try done; by destruct H.
Qed.

Lemma path_exists_false (p : list string) :
  FS.path_exists fs p = false ↔ fs !! p = None.
Proof. unfold FS.path_exists. by destruct (fs !! p). Qed.

(** Different counters give different candidates. *)
Lemma candidate_inj : Inj (=) (=) cand.
Proof.
  intros i j E. unfold candidate, Path.child in E.
  apply app_inv_head in E. injection E as E.
  apply (inj (String.app stem)) in E.
  apply (inj (String.app " (")) in E.
  rewrite <- !string_app_assoc in E.
  do 2 apply string_app_inj_r in E. by apply (inj pretty) in E.
Qed.

(** What the loop returns is the first free candidate at or after [i]. *)
Lemma probe_Some (fuel i : nat) (p : list string) :
  probe fuel fs dest_dir stem suffix i = Some p →
  ∃ j, (i ≤ j < i + fuel)%nat ∧ p = cand j ∧ fs !! cand j = None ∧
       ∀ k, (i ≤ k < j)%nat → is_Some (fs !! cand k).
Proof.
  revert i. induction fuel as [|fuel IH]; intros i; simpl; [done|].
  destruct (FS.path_exists fs (cand i)) eqn:E; simpl.
  - intros (j & Hj & -> & Hfree & Hbusy)%IH. exists j.
    split; [lia|]. split; [done|]. split; [done|].
    intros k Hk. destruct (decide (k = i)) as [->|].
    + by apply path_exists_true.
    + apply Hbusy. lia.
  - intros [= <-]. exists i.
    split; [lia|]. split; [done|]. split; [by apply path_exists_false|lia].
Qed.

(** Running out of fuel means every candidate tried was taken. *)
Lemma probe_None (fuel i : nat) :
  probe fuel fs dest_dir stem suffix i = None →
  ∀ k, (i ≤ k < i + fuel)%nat → is_Some (fs !! cand k).
Proof.
  revert i. induction fuel as [|fuel IH]; intros i; simpl; [lia|].
  destruct (FS.path_exists fs (cand i)) eqn:E; simpl; [|done].
  intros H k Hk. destruct (decide (k = i)) as [->|].
  - by apply path_exists_true.
  - apply (IH _ H). lia.
Qed.

(** With the first free candidate within reach, the loop returns it. *)
Lemma probe_first (fuel i j : nat) :
  (i ≤ j < i + fuel)%nat →
  fs !! cand j = None →
  (∀ k, (i ≤ k < j)%nat → is_Some (fs !! cand k)) →
  probe fuel fs dest_dir stem suffix i = Some (cand j).
Proof.
  revert i. induction fuel as [|fuel IH]; intros i Hj Hfree Hbusy; [lia|].
  simpl. destruct (decide (i = j)) as [->|Hne].
  - apply path_exists_false in Hfree. by rewrite Hfree.
  - assert (FS.path_exists fs (cand i) = true) as ->.
    { apply path_exists_true, Hbusy. lia. }
    simpl. apply IH; [lia|done|]. intros k Hk. apply Hbusy. lia.
Qed.

(** Finitely many entries cannot take all of [size fs + 1] candidates. *)
Lemma candidates_not_all_taken (i : nat) :
  ¬ ∀ k, (i ≤ k < i + S (size fs))%nat → is_Some (fs !! cand k).
Proof.
  intros Hall.
  set (l := cand <$> seq i (S (size fs))).
  assert (NoDup l) as Hnd.
  { apply NoDup_fmap_2_strong; [|apply NoDup_seq].
    intros x y _ _. apply candidate_inj. }
  assert (list_to_set l ⊆ dom fs) as Hsub.
  { intros p [k [-> Hk%elem_of_seq]]%elem_of_list_to_set%list_elem_of_fmap.
    apply elem_of_dom, Hall. lia. }
  apply subseteq_size in Hsub.
  rewrite size_list_to_set, size_dom in Hsub by done.
  unfold l in Hsub. rewrite length_fmap, length_seq in Hsub. lia.
Qed.

(** The loop ends: [size fs + 1] rounds are enough. *)
Lemma probe_terminates (fuel i : nat) :
  (size fs < fuel)%nat → is_Some (probe fuel fs dest_dir stem suffix i).
Proof.
  intros Hfuel.
  destruct (probe fuel fs dest_dir stem suffix i) eqn:E; [done|].
  exfalso. apply (candidates_not_all_taken i).
  intros k Hk. apply (probe_None _ _ E). lia.
Qed.

End unique_target_facts.

(** More fuel never changes an answer already given. *)
Lemma unique_target_fuel_indep (fs : gmap (list string) node)
    (dest_dir : list string) (name : string) (fuel fuel' : nat)
    (p p' : list string) :
  unique_target fuel fs dest_dir name = Some p →
  unique_target fuel' fs dest_dir name = Some p' →
  p = p'.
Proof.
  unfold unique_target.
  destruct (FS.path_exists fs (dest_dir /: name)); simpl; [|congruence].
  intros (i & Hi & -> & Hfree & Hbusy)%probe_Some.
  intros (j & Hj & -> & Hfree' & Hbusy')%probe_Some.
  destruct (lt_eq_lt_dec i j) as [[Hlt| ->]|Hlt]; [|done|].
  - destruct (Hbusy' i) as [? ?]; [lia|congruence].
  - destruct (Hbusy j) as [? ?]; [lia|congruence].
Qed.

(** The path returned names no entry. *)
Lemma unique_target_fresh (fs : gmap (list string) node)
    (dest_dir : list string) (name : string) (fuel : nat) (p : list string) :
  unique_target fuel fs dest_dir name = Some p → fs !! p = None.
Proof.
  unfold unique_target.
  destruct (FS.path_exists fs (dest_dir /: name)) eqn:E; cbn [negb].
  - by intros (i & _ & -> & Hfree & _)%probe_Some.
  - intros [= <-]. by apply path_exists_false.
Qed.

(** C3: for a [name] that is one path component, [unique_target]
    returns [dest_dir/name] when that path is free.  Otherwise, with the
    name split into stem and suffix (together the name again, the suffix
    empty or starting with its dot), it returns the candidate
    [stem (i)suffix] for the least [i >= 1] whose candidate is free;
    every candidate name is one component too, so each candidate lies
    directly in [dest_dir].  The path returned is always free, a second
    call against the same directory returns the same path, and the call
    leaves the directory as it found it. *)
Theorem unique_target_spec (fs : gmap (list string) node)
    (dest_dir : list string) (name : string) :
  Path.component name = true →
  let dest := dest_dir /: name in
  let stem := Path.stem dest in
  let suffix := Path.suffix dest in
  (stem +:+ suffix = name ∧ (suffix = "" ∨ ∃ t, suffix = String "." t)) ∧
  (∀ i, ∃ n, Path.component n = true ∧
             candidate dest_dir stem suffix i = dest_dir /: n) ∧
  (fs !! dest = None →
   ∀ fuel, unique_target fuel fs dest_dir name = Some dest) ∧
  (is_Some (fs !! dest) →
   ∃ i, (1 ≤ i)%nat ∧
        fs !! candidate dest_dir stem suffix i = None ∧
        (∀ j, (1 ≤ j < i)%nat →
              is_Some (fs !! candidate dest_dir stem suffix j)) ∧
        ∀ fuel, (i ≤ fuel)%nat →
          unique_target fuel fs dest_dir name
          = Some (candidate dest_dir stem suffix i)) ∧
  (∀ fuel p, unique_target fuel fs dest_dir name = Some p → fs !! p = None) ∧
  (∀ fuel fuel' p p',
     unique_target fuel fs dest_dir name = Some p →
     unique_target fuel' fs dest_dir name = Some p' → p = p') ∧
  (∀ fuel out,
     let w := World fs out in
     snd (unique_target_now fuel dest_dir name w) = w ∧
     unique_target_now fuel dest_dir name
       (snd (unique_target_now fuel dest_dir name w))
     = unique_target_now fuel dest_dir name w).
Proof.
  intros Hname dest stem suffix. split_and!.
  - unfold stem, suffix, dest. by rewrite stem_suffix, name_child.
  - apply suffix_dot.
  - intros i. eexists. split; [|reflexivity].
    unfold stem, suffix, dest, Path.stem, Path.suffix.
    rewrite name_child. by apply candidate_component.
  - intros Hfree fuel. unfold unique_target. fold dest.
    apply path_exists_false in Hfree. by rewrite Hfree.
  - intros Htaken. apply path_exists_true in Htaken.
    destruct (probe_terminates fs dest_dir stem suffix (S (size fs)) 1)
      as [p Hp]; [lia|].
    apply probe_Some in Hp as (i & Hi & -> & Hfree & Hbusy).
    exists i. split; [lia|]. split; [done|]. split; [done|].
    intros fuel Hfuel. unfold unique_target. fold dest stem suffix.
    rewrite Htaken. simpl. apply probe_first; [lia|done|done].
  - intros fuel p. apply unique_target_fresh.
  - intros fuel fuel' p p'. apply unique_target_fuel_indep.
  - intros fuel out w.
    assert (snd (unique_target_now fuel dest_dir name w) = w) as Hw.
    { unfold unique_target_now, mbind, M_bind, get_files, w. simpl.
      by destruct (unique_target fuel fs dest_dir name). }
    by rewrite Hw.
Qed.

(** A taken name, its first candidate taken too: the answer is the
    second candidate. *)
Lemma unique_target_spec_witness :
  let fs : gmap (list string) node :=
    list_to_map [ (["d"], Dir); (["d"; "report.pdf"], File "1");
                  (["d"; "report (1).pdf"], File "2") ] in
  Path.component "report.pdf" = true ∧
  unique_target 2 fs ["d"] "report.pdf" = Some ["d"; "report (2).pdf"] ∧
  fs !! ["d"; "report (2).pdf"] = None.
Proof.
  intros fs.
  assert (Path.component "report.pdf" = true) as Hname by reflexivity.
  split; [exact Hname|]. split; [by vm_compute|].
  by apply (proj1 (proj2 (proj2 (proj2 (proj2
              (unique_target_spec fs ["d"] "report.pdf" Hname))))) 2%nat).
Defined.

(** Enough fuel: one round more than there are entries. *)
Lemma unique_target_is_Some (fs : gmap (list string) node)
    (dest_dir : list string) (name : string) (fuel : nat) :
  (size fs < fuel)%nat → is_Some (unique_target fuel fs dest_dir name).
Proof.
  intros Hfuel. unfold unique_target.
  destruct (FS.path_exists fs (dest_dir /: name)); cbn [negb]; [|done].
  by apply probe_terminates.
Qed.

(** C9: the loop of [unique_target] carries no bound, and yet the call
    returns: a directory state holds finitely many entries, so among the
    first [size fs + 1] candidates one is free.  From that much fuel on
    the answer is there, and it is one answer. *)
Theorem unique_target_terminates (fs : gmap (list string) node)
    (dest_dir : list string) (name : string) :
  ∃ fuel0 p, ∀ fuel, (fuel0 ≤ fuel)%nat →
    unique_target fuel fs dest_dir name = Some p.
Proof.
  exists (S (size fs)).
  destruct (unique_target_is_Some fs dest_dir name (S (size fs)))
    as [p Hp]; [lia|].
  exists p. intros fuel Hfuel.
  destruct (unique_target_is_Some fs dest_dir name fuel) as [p' Hp']; [lia|].
  rewrite Hp'. f_equal. by eapply unique_target_fuel_indep.
Qed.

(** ** Running the program *)

(** Unfold the plumbing of the monad. *)
Ltac run :=
  unfold mbind, M_bind, mret, M_ret, get_files, put_files, print, raise,
    timeout, syscall; cbn [files console fst snd].

Lemma relative_to_app (base rest : list string) :
  Path.relative_to (base ++ rest) base = Some rest.
Proof.
  induction base as [|b base IH]; simpl; [done|].
  rewrite String.eqb_refl. exact IH.
Qed.

(** What [unique_target] returns lies directly in [dest_dir]. *)
Lemma unique_target_child (fs : gmap (list string) node)
    (dest_dir : list string) (name : string) (fuel : nat) (p : list string) :
  unique_target fuel fs dest_dir name = Some p →
  ∃ name', p = dest_dir /: name'.
Proof.
  unfold unique_target.
  destruct (FS.path_exists fs (dest_dir /: name)); cbn [negb].
  - intros (i & _ & -> & _)%probe_Some. unfold candidate. eauto.
  - intros [= <-]. eauto.
Qed.

(** Printing the path of something two levels below [downloads],
    relative to [downloads], raises nothing. *)
Lemma relative_str_child (downloads : list string) (folder name : string)
    (w : world) :
  relative_str (downloads /: folder /: name) downloads w
  = (Ret (folder +:+ "/" +:+ name), w).
Proof.
  unfold relative_str, Path.child. rewrite <- app_assoc.
  by rewrite relative_to_app.
Qed.

(** *** Checking a concrete filesystem *)

Section checks.

Variable fs : gmap (list string) node.

Lemma relative_to_Some (p base rest : list string) :
  Path.relative_to p base = Some rest ↔ p = base ++ rest.
Proof.
  split; [|intros ->; apply relative_to_app].
  revert p. induction base as [|b base IH]; intros p; simpl.
  - by intros [= ->].
  - destruct p as [|a p]; [done|].
    destruct (String.eqb_spec a b) as [->|]; [|done].
    by intros ->%IH.
Qed.

Lemma elem_of_children (d : list string) (n : string) :
  n ∈ children fs d ↔ is_Some (fs !! (d /: n)).
Proof.
  unfold children. rewrite list_elem_of_omap. split.
  - intros (k & Hk%elem_of_elements%elem_of_dom & Hn).
    destruct (Path.relative_to k d) as [[|n' [|]]|] eqn:E; try done.
    injection Hn as ->. apply relative_to_Some in E. by subst k.
  - intros Hn. exists (d /: n). split.
    + by apply elem_of_elements, elem_of_dom.
    + unfold Path.child. by rewrite relative_to_app.
Qed.

(** An enumeration without repetition of the computed children is a
    listing. *)
Lemma listing_check (d : list string) (l : list string) :
  NoDup l → l ≡ₚ children fs d → FS.listing fs d l.
Proof.
  intros Hnd Hperm. split; [done|]. intros n.
  by rewrite Hperm, elem_of_children.
Qed.

(** Well-formedness, checked entry by entry. *)
Lemma wf_check :
  forallb (λ '(p, _), match p with
                      | [] => true
                      | _ => FS.is_dir fs (Path.parent p)
                      end) (map_to_list fs) = true →
  FS.wf fs.
Proof.
  intros Hall p [x Hp] Hne.
  rewrite forallb_forall in Hall.
  apply elem_of_map_to_list, list_elem_of_In, Hall in Hp.
  destruct p; [done|]. unfold FS.is_dir in Hp.
  by destruct (fs !! Path.parent _) as [[]|].
Qed.

End checks.

(** *** Simulate mode *)

Section dry_run.

Variable downloads : list string.

(** One entry in simulate mode: the filesystem is handed on as it came,
    and with fuel for the probe loop the entry is dealt with. *)
Lemma organize_item_dry (fuel : nat) (name : string) (w : world) :
  files (snd (organize_item fuel downloads true name w)) = files w ∧
  ((size (files w) < fuel)%nat →
   ∃ lines, organize_item fuel downloads true name w
            = (Ret tt, World (files w) (console w ++ lines))).
Proof.
  unfold organize_item. run.
  destruct (FS.is_dir _ _); [split; [done|]; intros _; exists []|].
  { by rewrite app_nil_r; destruct w. }
  destruct (Str.startswith _ _); [split; [done|]; intros _; exists []|].
  { by rewrite app_nil_r; destruct w. }
  rewrite name_child.
  set (target_dir := downloads /: folder_name_of (downloads /: name)).
  destruct (FS.path_exists (files w) target_dir); cbn [negb]; run;
    unfold unique_target_now; run.
  all: destruct (unique_target fuel (files w) target_dir name) as [p|] eqn:E.
  all: split; try done.
  all: try (intros Hfuel; exfalso;
            destruct (unique_target_is_Some (files w) target_dir name fuel Hfuel);
            congruence).
  all: try (apply unique_target_child in E as [name' ->];
            unfold target_dir; rewrite relative_str_child; by run).
  all: intros _; apply unique_target_child in E as [name' ->];
       unfold target_dir; rewrite relative_str_child; run; cbn [files console].
  - eexists. destruct w; simpl. done.
  - eexists. by rewrite <- app_assoc.
Qed.

(** The loop in simulate mode. *)
Lemma for_each_dry (fuel : nat) (entries : list string) (w : world) :
  files (snd (for_each entries (organize_item fuel downloads true) w))
  = files w ∧
  ((size (files w) < fuel)%nat →
   ∃ lines, for_each entries (organize_item fuel downloads true) w
            = (Ret tt, World (files w) (console w ++ lines))).
Proof.
  revert w. induction entries as [|name entries IH]; intros w; simpl.
  { split; [done|]. intros _. exists []. rewrite app_nil_r. by destruct w. }
  run. destruct (organize_item_dry fuel name w) as [Hfs Hret].
  split.
  - destruct (organize_item fuel downloads true name w) as [[[]| |] w1];
      simpl in *; try done.
    by rewrite (proj1 (IH w1)).
  - intros Hfuel. destruct (Hret Hfuel) as [lines ->].
    destruct (proj2 (IH (World (files w) (console w ++ lines))))
      as [lines' ->]; [done|].
    exists (lines ++ lines'). simpl. by rewrite <- app_assoc.
Qed.

End dry_run.

(** C1: in simulate mode [organize] hands the filesystem back as it
    got it, whatever the root, the entries and the outcome; and given
    fuel for the probe loop it runs to its [return]. *)
Theorem organize_simulate_no_mutation (entries : list string)
    (downloads : list string) (w : world) :
  (∀ fuel,
     files (snd (organize fuel entries downloads true w)) = files w) ∧
  (∃ fuel0, ∀ fuel, (fuel0 ≤ fuel)%nat →
     ∃ status out, organize fuel entries downloads true w
                   = (Ret status, World (files w) out)).
Proof.
  split.
  - intros fuel. unfold organize. run.
    destruct (_ || _); [done|]. run.
    set (w1 := World _ _).
    pose proof (proj1 (for_each_dry downloads fuel entries w1)) as Hfs.
    destruct (for_each entries _ w1) as [[[]| |] w2]; simpl in *; done.
  - exists (S (size (files w))). intros fuel Hfuel.
    unfold organize. run.
    destruct (_ || _); [by eauto|]. run.
    set (w1 := World _ _).
    destruct (proj2 (for_each_dry downloads fuel entries w1)) as [lines ->];
      [simpl; lia|].
    simpl. eauto.
Qed.

(** C2: when the root does not exist or is not a directory, [organize]
    changes nothing on the filesystem, writes one line to standard
    error and returns 1, in either mode. *)
Theorem organize_invalid_root (fuel : nat) (entries : list string)
    (downloads : list string) (dry_run : bool) (w : world) :
  FS.path_exists (files w) downloads = false ∨
  FS.is_dir (files w) downloads = false →
  organize fuel entries downloads dry_run w
  = (Ret 1%Z,
     World (files w)
       (console w ++ [(stderr, "Error: not a directory: " +:+ Path.str downloads)])).
Proof.
  intros Hbad. unfold organize. run.
  by destruct Hbad as [-> | ->]; rewrite ?orb_true_r.
Qed.

Lemma organize_invalid_root_witness :
  organize 0 ["a.txt"] ["nowhere"] false (World ∅ [])
  = (Ret 1%Z, World ∅ [(stderr, "Error: not a directory: /nowhere")]).
Proof.
  apply (organize_invalid_root 0 ["a.txt"] ["nowhere"] false (World ∅ [])).
  left. reflexivity.
Defined.

(** *** What simulate mode reports about folders *)

(** Refute a conjunction one of whose parts contradicts the context. *)
Ltac refute :=
  let H := fresh "H" in
  intros H; decompose [and] H; cbn in *; first [congruence | tauto].

Section creation_reports.

Lemma count_line_app (line : stream * string) (o1 o2 : list (stream * string)) :
  count_line line (o1 ++ o2) = (count_line line o1 + count_line line o2)%nat.
Proof. unfold count_line. by rewrite filter_app, length_app. Qed.

Lemma count_line_one (line l : stream * string) :
  count_line line [l] = if decide (l = line) then 1%nat else 0%nat.
Proof.
  unfold count_line. rewrite filter_cons, filter_nil. by destruct (decide _).
Qed.

Lemma join_cons (a b : string) (rest : list string) :
  Path.join (a :: b :: rest) = a +:+ "/" +:+ Path.join (b :: rest).
Proof. reflexivity. Qed.

Lemma join_snoc (d : list string) (f : string) :
  Path.join (d ++ [f])
  = match d with [] => f | _ => Path.join d +:+ "/" +:+ f end.
Proof.
  induction d as [|a d IH]; [done|].
  destruct d as [|b d]; [done|].
  change ((a :: b :: d) ++ [f]) with (a :: b :: (d ++ [f])).
  rewrite !join_cons.
  change (b :: (d ++ [f])) with ((b :: d) ++ [f]). rewrite IH.
  by rewrite !string_app_assoc.
Qed.

(** Sibling folders print differently. *)
Lemma join_child_inj (d : list string) (f1 f2 : string) :
  Path.join (d /: f1) = Path.join (d /: f2) → f1 = f2.
Proof.
  unfold Path.child. rewrite !join_snoc. destruct d; [done|].
  rewrite <- !string_app_assoc. apply (inj (String.app _)).
Qed.

Lemma would_create_line_inj (d : list string) (f1 f2 : string) :
  would_create_line (d /: f1) = would_create_line (d /: f2) → f1 = f2.
Proof.
  unfold would_create_line, Path.str. intros [= E].
  apply (join_child_inj d). exact E.
Qed.

Lemma would_move_not_create (x y : string) (p : list string) :
  (stdout, "[DRY RUN] Would move: " +:+ x +:+ " -> " +:+ y)
  ≠ would_create_line p.
Proof.
  unfold would_create_line.
  generalize (x +:+ " -> " +:+ y) (Path.str p). intros s t E.
  vm_compute in E. congruence.
Qed.

Lemma organizing_not_create (x : string) (p : list string) :
  (stdout, "DRY RUN: " +:+ "Organizing: " +:+ x) ≠ would_create_line p.
Proof.
  unfold would_create_line.
  generalize (Path.str p). intros t E. vm_compute in E. congruence.
Qed.

Lemma done_not_create (p : list string) :
  (stdout, "Done.") ≠ would_create_line p.
Proof.
  unfold would_create_line.
  generalize (Path.str p). intros t E. vm_compute in E. congruence.
Qed.

Variable downloads : list string.

(** One entry in simulate mode: among the lines it prints, the creation
    line of a folder occurs once when the entry is dealt with, is filed
    under that folder and the folder does not exist; otherwise not. *)
Lemma organize_item_dry_count (fuel : nat) (name : string) (w : world) :
  (size (files w) < fuel)%nat →
  ∃ lines,
    organize_item fuel downloads true name w
    = (Ret tt, World (files w) (console w ++ lines)) ∧
    ∀ folder,
      count_line (would_create_line (downloads /: folder)) lines
      = if decide (processed (files w) downloads name = true ∧
                   folder_name_of (downloads /: name) = folder ∧
                   FS.path_exists (files w) (downloads /: folder) = false)
        then 1%nat else 0%nat.
Proof.
  intros Hfuel. unfold organize_item, processed. run. rewrite name_child.
  destruct (FS.is_dir _ _).
  { exists []. split; [by rewrite app_nil_r; destruct w|].
    intros folder. by rewrite decide_False by refute. }
  destruct (Str.startswith _ _).
  { exists []. split; [by rewrite app_nil_r; destruct w|].
    intros folder. by rewrite decide_False by refute. }
  set (target_dir := downloads /: folder_name_of (downloads /: name)).
  destruct (unique_target_is_Some (files w) target_dir name fuel Hfuel)
    as [p Hp].
  destruct (unique_target_child _ _ _ _ _ Hp) as [name' ->].
  destruct (FS.path_exists (files w) target_dir) eqn:Hdir; cbn [negb]; run;
    unfold unique_target_now; run; rewrite Hp;
    unfold target_dir; rewrite relative_str_child; run.
  - eexists. split; [done|]. intros folder.
    rewrite count_line_one, (decide_False (P := _ = _))
      by apply would_move_not_create.
    rewrite decide_False; [done|].
    intros (_ & <- & Hno). fold target_dir in Hno. congruence.
  - eexists. split; [by rewrite <- app_assoc|]. intros folder.
    rewrite (count_line_app _ [_] [_]), !count_line_one.
    rewrite (decide_False (P := (_, _ +:+ _ +:+ _ +:+ _) = _))
      by apply would_move_not_create.
    fold (would_create_line (downloads /: folder_name_of (downloads /: name))).
    destruct (decide (folder_name_of (downloads /: name) = folder)) as [<-|Hne].
    + fold target_dir. rewrite decide_True by done.
      by rewrite decide_True by done.
    + rewrite decide_False by (by intros ?%would_create_line_inj).
      by rewrite decide_False by refute.
Qed.

(** The loop in simulate mode, counting the creation line of a folder. *)
Lemma for_each_dry_count (fuel : nat) (entries : list string) (w : world) :
  (size (files w) < fuel)%nat →
  ∃ lines,
    for_each entries (organize_item fuel downloads true) w
    = (Ret tt, World (files w) (console w ++ lines)) ∧
    ∀ folder,
      count_line (would_create_line (downloads /: folder)) lines
      = if FS.path_exists (files w) (downloads /: folder) then 0%nat
        else length (filter
               (λ name, processed (files w) downloads name = true ∧
                        folder_name_of (downloads /: name) = folder)
               entries).
Proof.
  intros Hfuel. revert w Hfuel.
  induction entries as [|name entries IH]; intros w Hfuel; simpl.
  { exists []. split; [by rewrite app_nil_r; destruct w|].
    intros folder. by destruct (FS.path_exists _ _). }
  run. destruct (organize_item_dry_count fuel name w Hfuel)
    as (l1 & -> & Hl1).
  destruct (IH (World (files w) (console w ++ l1)) Hfuel) as (l2 & -> & Hl2).
  cbn [files console] in *.
  exists (l1 ++ l2). split; [by rewrite <- app_assoc|]. intros folder.
  rewrite count_line_app, Hl1, Hl2. simpl. rewrite filter_cons.
  destruct (FS.path_exists (files w) (downloads /: folder)) eqn:E.
  - by rewrite decide_False by refute.
  - destruct (decide (processed _ _ _ = true ∧ _ = folder)) as [[??]|Hn].
    + by rewrite decide_True by done.
    + by rewrite decide_False by refute.
Qed.

End creation_reports.

(** C8, as the code has it: in simulate mode against an existing root,
    the line announcing the creation of a category folder is printed
    once for every entry dealt with that is filed under that folder, as
    long as the folder does not exist, and never for a folder that
    exists.  Nothing remembers that a folder was announced before. *)
Theorem simulate_creation_reports (fuel : nat) (entries : list string)
    (downloads : list string) (folder : string)
    (fs : gmap (list string) node) :
  FS.is_dir fs downloads = true →
  (size fs < fuel)%nat →
  count_line (would_create_line (downloads /: folder))
    (console (snd (organize fuel entries downloads true (World fs []))))
  = if FS.path_exists fs (downloads /: folder) then 0%nat
    else length (filter
           (λ name, processed fs downloads name = true ∧
                    folder_name_of (downloads /: name) = folder)
           entries).
Proof.
  intros Hroot Hfuel. unfold organize. run.
  assert (FS.path_exists fs downloads = true) as ->.
  { revert Hroot. unfold FS.is_dir, FS.path_exists.
    by destruct (fs !! downloads). }
  rewrite Hroot. cbn [negb orb]. run.
  set (w1 := World fs _).
  destruct (for_each_dry_count downloads fuel entries w1 Hfuel)
    as (lines & -> & Hcount).
  cbn [files console snd w1] in *.
  rewrite !count_line_app, !count_line_one, Hcount.
  rewrite decide_False by apply organizing_not_create.
  rewrite decide_False by apply done_not_create.
  change (count_line _ []) with 0%nat. lia.
Qed.

Lemma simulate_creation_reports_witness :
  let fs : gmap (list string) node :=
    list_to_map [ (["d"], Dir); (["d"; "a.txt"], File "");
                  (["d"; "b.txt"], File "") ] in
  count_line (would_create_line ["d"; "Documents"])
    (console (snd (organize 4 ["a.txt"; "b.txt"] ["d"] true (World fs []))))
  = 2%nat.
Proof.
  intros fs. change ["d"; "Documents"] with (["d"] /: "Documents").
  rewrite (simulate_creation_reports 4 ["a.txt"; "b.txt"] ["d"] "Documents" fs);
    [by vm_compute|reflexivity|vm_compute; lia].
Defined.

(** C8, read as at most one announcement per folder and run, fails:
    two text files and no [Documents] folder make simulate mode
    announce the creation of [Documents] twice in one run. *)
Lemma simulate_creation_report_repeated :
  let fs : gmap (list string) node :=
    list_to_map [ (["d"], Dir); (["d"; "a.txt"], File "");
                  (["d"; "b.txt"], File "") ] in
  FS.listing fs ["d"] ["a.txt"; "b.txt"] ∧
  ¬ (count_line (would_create_line ["d"; "Documents"])
       (console (snd (organize 4 ["a.txt"; "b.txt"] ["d"] true (World fs []))))
     ≤ 1)%nat.
Proof.
  intros fs. split.
  - apply listing_check; apply (bool_decide_unpack _); by vm_compute.
  - vm_compute. lia.
Qed.

(** *** Live mode *)

Section live.

Variable downloads : list string.

(** Creating one directory in an existing directory. *)
Lemma mkdir_fresh (p : list string) (w : world) :
  files w !! p = None →
  files w !! Path.parent p = Some Dir →
  mkdir p w = (Ret tt, World (<[p := Dir]> (files w)) (console w)).
Proof.
  intros Hp Hparent. unfold mkdir.
  destruct (length p); simpl; run; unfold Os.mkdir;
    by rewrite Hp, Hparent.
Qed.

(** Moving a regular file onto a free name in an existing directory. *)
Lemma shutil_move_file (src dst : list string) (data : string) (w : world) :
  files w !! src = Some (File data) →
  files w !! dst = None →
  files w !! Path.parent dst = Some Dir →
  shutil_move src dst w
  = (Ret tt, World (<[dst := File data]> (delete src (files w))) (console w)).
Proof.
  intros Hsrc Hdst Hparent. unfold shutil_move, FS.is_dir. run.
  rewrite Hdst. run. unfold Os.rename. by rewrite Hsrc, Hparent, Hdst.
Qed.

(** The folder depends on the name of the entry alone. *)
Lemma folder_name_of_child (d : list string) (name : string) :
  folder_name_of (d /: name) = folder_name_of [name].
Proof.
  unfold folder_name_of, ext_of, Path.suffix. by rewrite name_child.
Qed.

(** Directories are passed over. *)
Lemma organize_item_dir (fuel : nat) (dry_run : bool) (name : string)
    (w : world) :
  files w !! (downloads /: name) = Some Dir →
  organize_item fuel downloads dry_run name w = (Ret tt, w).
Proof.
  intros Hdir. unfold organize_item, FS.is_dir. run. by rewrite Hdir.
Qed.

(** Hidden entries are passed over. *)
Lemma organize_item_hidden (fuel : nat) (dry_run : bool) (name : string)
    (w : world) :
  Str.startswith "." name = true →
  organize_item fuel downloads dry_run name w = (Ret tt, w).
Proof.
  intros Hhidden. unfold organize_item. run. rewrite name_child, Hhidden.
  by destruct (FS.is_dir _ _).
Qed.

(** A regular, visible file goes to the name [unique_target] picks in
    its folder, the folder being made first when it is not there. *)
Lemma organize_item_live_move (fuel : nat) (name name' folder data : string)
    (w : world) :
  files w !! downloads = Some Dir →
  files w !! (downloads /: name) = Some (File data) →
  Str.startswith "." name = false →
  folder_name_of [name] = folder →
  files w !! (downloads /: folder) = None ∨
  files w !! (downloads /: folder) = Some Dir →
  unique_target fuel (<[downloads /: folder := Dir]> (files w))
    (downloads /: folder) name = Some (downloads /: folder /: name') →
  organize_item fuel downloads false name w
  = (Ret tt, World (moved downloads (files w) folder name name' data)
               (console w ++ live_lines downloads (files w) folder name name')).
Proof.
  intros Hroot Hitem Hvis Hfolder Hdir Htarget.
  unfold organize_item, FS.is_dir. run.
  rewrite name_child, Hitem, Hvis, folder_name_of_child, Hfolder.
  assert (<[downloads /: folder:=Dir]> (files w)
            !! (downloads /: folder /: name') = None) as Hfree.
  { by eapply unique_target_fresh. }
  assert (downloads /: folder ≠ downloads /: folder /: name') as Hne.
  { intros E%(f_equal length). unfold Path.child in E.
    rewrite !length_app in E. simpl in E. lia. }
  assert (downloads /: folder ≠ downloads /: name) as Hne'.
  { intros E. rewrite E in Hdir. destruct Hdir; congruence. }
  unfold live_lines, moved, FS.path_exists.
  destruct Hdir as [Hd|Hd]; rewrite Hd; cbn [negb]; run.
  - rewrite mkdir_fresh by (by rewrite ?parent_child). run.
    unfold unique_target_now. run. rewrite Htarget. run.
    rewrite (shutil_move_file _ _ data); cbn [files console].
    + rewrite relative_str_child. run. by rewrite <- app_assoc.
    + by rewrite lookup_insert_ne.
    + done.
    + by rewrite parent_child, lookup_insert_eq.
  - rewrite (insert_id (files w) (downloads /: folder) Dir Hd) in *.
    unfold unique_target_now. run. rewrite Htarget. run.
    rewrite (shutil_move_file _ _ data); cbn [files console].
    + rewrite relative_str_child. by run.
    + done.
    + done.
    + by rewrite parent_child.
Qed.

End live.

(** Two paths built from the same root differ when they differ in
    depth or in a component. *)
Ltac path_ne :=
  let E := fresh "E" in
  intros E; unfold Path.child in E;
  first
    [ apply (f_equal length) in E; rewrite ?length_app in E;
      simpl in E; lia
    | rewrite <- ?app_assoc in E; apply app_inv_head in E;
      simpl in E; congruence ].

(** Look a path up in a map built by insertions and deletions. *)
Ltac lookup_simpl :=
  repeat first
    [ rewrite lookup_insert_eq
    | rewrite lookup_delete_eq
    | rewrite lookup_insert_ne by path_ne
    | rewrite lookup_delete_ne by path_ne ].

Section live_runs.

Variable root : list string.

Lemma for_each_step {A} (x : A) (xs : list A) (body : A → M unit)
    (w w1 : world) :
  body x w = (Ret tt, w1) →
  for_each (x :: xs) body w = for_each xs body w1.
Proof. intros H. simpl. run. by rewrite H. Qed.

(** A live run over an existing root whose loop goes through returns 0
    with the filesystem the loop left. *)
Lemma organize_live_run (fuel : nat) (entries : list string) (w : world)
    (fs1 : gmap (list string) node) (out1 : list (stream * string)) :
  files w !! root = Some Dir →
  for_each entries (organize_item fuel root false)
    (World (files w) (console w ++ [(stdout, "Organizing: " +:+ Path.str root)]))
  = (Ret tt, World fs1 out1) →
  organize fuel entries root false w
  = (Ret 0%Z, World fs1 (out1 ++ [(stdout, "Done.")])).
Proof.
  intros Hroot Hloop. unfold organize, FS.path_exists, FS.is_dir. run.
  rewrite Hroot. cbn [negb orb]. run.
  change ("" +:+ "Organizing: " +:+ Path.str root)
    with ("Organizing: " +:+ Path.str root).
  by rewrite Hloop.
Qed.

(** A free name is taken as it is. *)
Lemma unique_target_free (fuel : nat) (fs : gmap (list string) node)
    (dest_dir : list string) (name : string) :
  fs !! (dest_dir /: name) = None →
  unique_target fuel fs dest_dir name = Some (dest_dir /: name).
Proof.
  intros Hfree. unfold unique_target, FS.path_exists. by rewrite Hfree.
Qed.

(** A taken name with a free first candidate gets the counter 1. *)
Lemma unique_target_first (fuel : nat) (fs : gmap (list string) node)
    (dest_dir : list string) (name name' : string) :
  is_Some (fs !! (dest_dir /: name)) →
  Path.stem [name] +:+ " (" +:+ pretty 1%nat +:+ ")" +:+ Path.suffix [name]
  = name' →
  fs !! (dest_dir /: name') = None →
  unique_target (S fuel) fs dest_dir name = Some (dest_dir /: name').
Proof.
  intros [? Htaken] <- Hfree.
  unfold unique_target, FS.path_exists. rewrite Htaken. cbn [negb probe].
  unfold candidate, FS.path_exists, Path.stem, Path.suffix in *.
  rewrite !name_child. change (Path.name [name]) with name in Hfree.
  by rewrite Hfree.
Qed.

End live_runs.

(** C5: the root holds the file [report.pdf] and the folder [PDFs],
    which holds a file [report.pdf] of its own and no [report (1).pdf].
    A live run, in whichever order the two entries are listed, moves
    the file of the root to [PDFs/report (1).pdf], leaves
    [PDFs/report.pdf] as it was, and returns 0. *)
Theorem organize_live_collision (fuel : nat) (entries : list string)
    (root : list string) (fs : gmap (list string) node)
    (new old : string) (out : list (stream * string)) :
  fs !! root = Some Dir →
  fs !! (root /: "report.pdf") = Some (File new) →
  fs !! (root /: "PDFs") = Some Dir →
  fs !! (root /: "PDFs" /: "report.pdf") = Some (File old) →
  fs !! (root /: "PDFs" /: "report (1).pdf") = None →
  entries ≡ₚ ["report.pdf"; "PDFs"] →
  (0 < fuel)%nat →
  let result := organize fuel entries root false (World fs out) in
  fst result = Ret 0%Z ∧
  files (snd result)
  = <[root /: "PDFs" /: "report (1).pdf" := File new]>
      (delete (root /: "report.pdf") fs) ∧
  files (snd result) !! (root /: "PDFs" /: "report.pdf") = Some (File old) ∧
  files (snd result) !! (root /: "report.pdf") = None.
Proof.
  intros Hroot Hnew Hdir Hold Hfree Hperm Hfuel result.
  destruct fuel as [|fuel]; [lia|].
  assert (organize_item (S fuel) root false "report.pdf" (World fs
            (out ++ [(stdout, "Organizing: " +:+ Path.str root)]))
          = (Ret tt, World (moved root fs "PDFs" "report.pdf" "report (1).pdf" new)
               ((out ++ [(stdout, "Organizing: " +:+ Path.str root)])
                ++ live_lines root fs "PDFs" "report.pdf" "report (1).pdf")))
    as Hmove.
  { apply (organize_item_live_move root); cbn [files]; try done; [by right|].
    rewrite insert_id by done.
    apply unique_target_first; [by eexists|by vm_compute|done]. }
  assert (moved root fs "PDFs" "report.pdf" "report (1).pdf" new
          = <[root /: "PDFs" /: "report (1).pdf" := File new]>
              (delete (root /: "report.pdf") fs)) as Hfs.
  { unfold moved. by rewrite (insert_id fs _ Dir Hdir). }
  assert (∃ out', result = (Ret 0%Z,
            World (<[root /: "PDFs" /: "report (1).pdf" := File new]>
                     (delete (root /: "report.pdf") fs)) out')) as [out' ->].
  { symmetry in Hperm. apply permutations_Permutation in Hperm.
    unfold result.
    cbn in Hperm. set_unfold in Hperm.
    destruct Hperm as [->|[->|[]]]; eexists;
      (apply organize_live_run; cbn [files console]; [done|]).
    - erewrite for_each_step by exact Hmove.
      erewrite for_each_step
        by (apply organize_item_dir; rewrite Hfs; cbn [files]; by lookup_simpl).
      cbn [for_each]. unfold mret, M_ret. rewrite Hfs. reflexivity.
    - erewrite for_each_step by (by apply organize_item_dir).
      erewrite for_each_step by exact Hmove.
      cbn [for_each]. unfold mret, M_ret. rewrite Hfs. reflexivity. }
  cbn [fst snd files]. split_and!; [done|done| |].
  - by lookup_simpl.
  - by lookup_simpl.
Qed.

Lemma organize_live_collision_witness :
  let fs : gmap (list string) node :=
    list_to_map [ (["dl"], Dir); (["dl"; "report.pdf"], File "new");
                  (["dl"; "PDFs"], Dir);
                  (["dl"; "PDFs"; "report.pdf"], File "old") ] in
  let result := organize 1 ["PDFs"; "report.pdf"] ["dl"] false (World fs []) in
  fst result = Ret 0%Z ∧
  files (snd result) !! ["dl"; "PDFs"; "report (1).pdf"] = Some (File "new") ∧
  files (snd result) !! ["dl"; "PDFs"; "report.pdf"] = Some (File "old") ∧
  files (snd result) !! ["dl"; "report.pdf"] = None.
Proof.
  intros fs result.
  destruct (organize_live_collision 1 ["PDFs"; "report.pdf"] ["dl"] fs
              "new" "old" []) as (H0 & H1 & H2 & H3);
    [by vm_compute|by vm_compute|by vm_compute|by vm_compute|by vm_compute
    |apply perm_swap|lia|].
  split; [exact H0|]. split; [|split; [exact H2|exact H3]].
  unfold result. rewrite H1. apply lookup_insert_eq.
Defined.

(** *** The four-entry example *)

Section four_entries.

Variable root : list string.
Variable fs : gmap (list string) node.
Variables ca cb : string.

Hypothesis fs_wf : FS.wf fs.
Hypothesis root_dir : fs !! root = Some Dir.
Hypothesis a_file : fs !! (root /: "a.txt") = Some (File ca).
Hypothesis b_file : fs !! (root /: "b.jpg") = Some (File cb).
Hypothesis sub_dir : fs !! (root /: "sub") = Some Dir.
Hypothesis nothing_else :
  ∀ n, is_Some (fs !! (root /: n)) → n ∈ ["a.txt"; "b.jpg"; ".hidden"; "sub"].

Lemma no_folder (folder : string) :
  folder ∉ ["a.txt"; "b.jpg"; ".hidden"; "sub"] →
  fs !! (root /: folder) = None.
Proof.
  intros Hnot. destruct (fs !! (root /: folder)) eqn:E; [|done].
  destruct Hnot. apply nothing_else. by rewrite E.
Qed.

Lemma nothing_below (folder name : string) :
  fs !! (root /: folder) = None → fs !! (root /: folder /: name) = None.
Proof.
  intros Hnone. destruct (fs !! (root /: folder /: name)) eqn:E; [|done].
  assert (fs !! Path.parent (root /: folder /: name) = Some Dir) as Hp.
  { apply fs_wf; [by rewrite E|]. unfold Path.child.
    intros E'%(f_equal length). rewrite !length_app in E'. simpl in E'. lia. }
  rewrite parent_child in Hp. congruence.
Qed.

Lemma no_Documents : fs !! (root /: "Documents") = None.
Proof.
  apply no_folder. rewrite !not_elem_of_cons.
  split_and!; first [congruence | apply not_elem_of_nil].
Qed.

Lemma no_Images : fs !! (root /: "Images") = None.
Proof.
  apply no_folder. rewrite !not_elem_of_cons.
  split_and!; first [congruence | apply not_elem_of_nil].
Qed.

Lemma no_Documents_a : fs !! (root /: "Documents" /: "a.txt") = None.
Proof. apply nothing_below, no_Documents. Qed.

Lemma no_Images_b : fs !! (root /: "Images" /: "b.jpg") = None.
Proof. apply nothing_below, no_Images. Qed.

(** Compare two maps built from [fs] at the six paths touched and
    away from them. *)
Ltac same_map :=
  apply map_eq; intros k; unfold moved, organized;
  destruct (decide (k = root /: "a.txt")) as [->|];
    [by lookup_simpl|];
  destruct (decide (k = root /: "b.jpg")) as [->|];
    [by lookup_simpl|];
  destruct (decide (k = root /: "Documents")) as [->|];
    [by lookup_simpl|];
  destruct (decide (k = root /: "Images")) as [->|];
    [by lookup_simpl|];
  destruct (decide (k = root /: "Documents" /: "a.txt")) as [->|];
    [by lookup_simpl|];
  destruct (decide (k = root /: "Images" /: "b.jpg")) as [->|];
    [by lookup_simpl|];
  by repeat first [ rewrite lookup_insert_ne by congruence
                  | rewrite lookup_delete_ne by congruence ].

Lemma moved_a_then_b :
  moved root (moved root fs "Documents" "a.txt" "a.txt" ca)
    "Images" "b.jpg" "b.jpg" cb = organized root fs ca cb.
Proof. same_map. Qed.

Lemma moved_b_then_a :
  moved root (moved root fs "Images" "b.jpg" "b.jpg" cb)
    "Documents" "a.txt" "a.txt" ca = organized root fs ca cb.
Proof. same_map. Qed.

Lemma folder_a_txt : folder_name_of ["a.txt"] = "Documents".
Proof. by vm_compute. Qed.

Lemma folder_b_jpg : folder_name_of ["b.jpg"] = "Images".
Proof. by vm_compute. Qed.

(** One round of the loop, for an entry passed over. *)
Ltac skip_step :=
  first
    [ erewrite for_each_step by (by apply organize_item_hidden)
    | erewrite for_each_step
        by (apply organize_item_dir; cbn [files]; unfold moved;
            by lookup_simpl) ].

(** One round of the loop, for a file that moves to a free name. *)
Ltac move_step :=
  erewrite for_each_step
    by (eapply (organize_item_live_move root); cbn [files]; unfold moved;
        [ by lookup_simpl
        | lookup_simpl; eassumption
        | reflexivity
        | first [exact folder_a_txt | exact folder_b_jpg]
        | lookup_simpl;
          first [ left; first [exact no_Documents | exact no_Images]
                | by right ]
        | apply unique_target_free; lookup_simpl;
          first [exact no_Documents_a | exact no_Images_b] ]).

(** The loop over the four entries, in any order. *)
Lemma four_entries_loop (fuel : nat) (entries : list string)
    (out : list (stream * string)) :
  entries ≡ₚ ["a.txt"; "b.jpg"; ".hidden"; "sub"] →
  ∃ out1, for_each entries (organize_item fuel root false) (World fs out)
          = (Ret tt, World (organized root fs ca cb) out1).
Proof.
  intros Hperm. symmetry in Hperm. apply permutations_Permutation in Hperm.
  cbn in Hperm. set_unfold in Hperm.
  repeat (destruct Hperm as [->|Hperm]); [..|done]; eexists;
    do 4 (first [skip_step | move_step]; cbn [files console]);
    cbn [for_each]; unfold mret, M_ret;
    first [rewrite moved_a_then_b | rewrite moved_b_then_a]; reflexivity.
Qed.

End four_entries.

(** C4: the root holds exactly the files [a.txt], [b.jpg], [.hidden]
    and the directory [sub].  A live run, in whichever order the four
    are listed, returns 0 and leaves the filesystem with [a.txt] under
    [Documents] and [b.jpg] under [Images], both folders made on the
    way; [.hidden], [sub] and every other path are as before. *)
Theorem organize_live_four_entries (fuel : nat) (entries : list string)
    (root : list string) (fs : gmap (list string) node)
    (ca cb ch : string) (out : list (stream * string)) :
  FS.wf fs →
  fs !! root = Some Dir →
  fs !! (root /: "a.txt") = Some (File ca) →
  fs !! (root /: "b.jpg") = Some (File cb) →
  fs !! (root /: ".hidden") = Some (File ch) →
  fs !! (root /: "sub") = Some Dir →
  FS.listing fs root entries →
  entries ≡ₚ ["a.txt"; "b.jpg"; ".hidden"; "sub"] →
  let result := organize fuel entries root false (World fs out) in
  let fs' := files (snd result) in
  fst result = Ret 0%Z ∧
  fs' = organized root fs ca cb ∧
  fs' !! (root /: "Documents" /: "a.txt") = Some (File ca) ∧
  fs' !! (root /: "a.txt") = None ∧
  fs' !! (root /: "Images" /: "b.jpg") = Some (File cb) ∧
  fs' !! (root /: "b.jpg") = None ∧
  fs' !! (root /: ".hidden") = Some (File ch) ∧
  fs' !! (root /: "sub") = Some Dir ∧
  ∀ p, p ∉ [root /: "a.txt"; root /: "b.jpg";
            root /: "Documents"; root /: "Images";
            root /: "Documents" /: "a.txt"; root /: "Images" /: "b.jpg"] →
       fs' !! p = fs !! p.
Proof.
  intros Hwf Hroot Ha Hb Hh Hsub [_ Hlist] Hperm result fs'.
  assert (∀ n, is_Some (fs !! (root /: n)) →
               n ∈ ["a.txt"; "b.jpg"; ".hidden"; "sub"]) as Hall.
  { intros n Hn. rewrite <- Hperm. by apply Hlist. }
  destruct (four_entries_loop root fs ca cb Hwf Hroot Ha Hb Hsub Hall fuel
              entries (out ++ [(stdout, "Organizing: " +:+ Path.str root)])
              Hperm) as [out1 Hloop].
  assert (result = (Ret 0%Z, World (organized root fs ca cb)
                                (out1 ++ [(stdout, "Done.")]))) as Hres.
  { by apply organize_live_run. }
  unfold fs'. rewrite Hres. cbn [fst snd files]. unfold organized.
  split_and!; try done; try by lookup_simpl.
  intros p Hp. rewrite !not_elem_of_cons in Hp.
  destruct Hp as (? & ? & ? & ? & ? & ? & _).
  repeat first [ rewrite lookup_insert_ne by congruence
               | rewrite lookup_delete_ne by congruence ].
  done.
Qed.

Lemma organize_live_four_entries_witness :
  let fs : gmap (list string) node :=
    list_to_map [ ([], Dir); (["home"], Dir); (["home"; "dl"], Dir);
                  (["home"; "dl"; "a.txt"], File "text");
                  (["home"; "dl"; "b.jpg"], File "image");
                  (["home"; "dl"; ".hidden"], File "secret");
                  (["home"; "dl"; "sub"], Dir);
                  (["home"; "dl"; "sub"; "c.txt"], File "below") ] in
  let result :=
    organize 0 ["sub"; "b.jpg"; ".hidden"; "a.txt"] ["home"; "dl"] false
      (World fs []) in
  fst result = Ret 0%Z ∧
  files (snd result) !! ["home"; "dl"; "Documents"; "a.txt"]
    = Some (File "text") ∧
  files (snd result) !! ["home"; "dl"; "Images"; "b.jpg"]
    = Some (File "image") ∧
  files (snd result) !! ["home"; "dl"; "sub"; "c.txt"] = Some (File "below").
Proof.
  intros fs result.
  destruct (organize_live_four_entries 0 ["sub"; "b.jpg"; ".hidden"; "a.txt"]
              ["home"; "dl"] fs "text" "image" "secret" [])
    as (H0 & _ & H1 & _ & H2 & _ & _ & _ & H3).
  - apply wf_check. by vm_compute.
  - by vm_compute.
  - by vm_compute.
  - by vm_compute.
  - by vm_compute.
  - by vm_compute.
  - apply listing_check.
    + apply (bool_decide_unpack _). by vm_compute.
    + apply (bool_decide_unpack _). by vm_compute.
  - apply (bool_decide_unpack _). by vm_compute.
  - split; [exact H0|]. split; [exact H1|]. split; [exact H2|].
    unfold result. rewrite H3; [by vm_compute|].
    apply (bool_decide_unpack _). by vm_compute.
Defined.

(** *** Running twice *)

Section idempotence.

Variable downloads : list string.

(** A move that goes through took a regular file to a free name in a
    directory. *)
Lemma shutil_move_Ret (src dst : list string) (w w' : world) :
  files w !! dst = None →
  (files w !! src = Some Dir → src `prefix_of` dst ∧ src ≠ dst) →
  shutil_move src dst w = (Ret tt, w') →
  ∃ data, files w !! src = Some (File data) ∧
          files w !! Path.parent dst = Some Dir ∧
          w' = World (<[dst := File data]> (delete src (files w))) (console w).
Proof.
  intros Hdst Hsrc. unfold shutil_move, FS.is_dir in *. run.
  rewrite Hdst. run. unfold Os.rename.
  destruct (files w !! src) as [[data|]|]; try done.
  - destruct (files w !! Path.parent dst) as [[|]|]; try done.
    rewrite Hdst. intros [= <-]. eauto.
  - destruct Hsrc as [Hpre Hne]; [done|].
    rewrite decide_False, decide_True by done. done.
Qed.

(** What a round of the live loop that goes through has done: nothing,
    for a directory or a hidden entry; otherwise it has moved a regular
    file into its folder. *)
Lemma organize_item_live_Ret (fuel : nat) (name : string) (w w' : world) :
  files w !! downloads = Some Dir →
  organize_item fuel downloads false name w = (Ret tt, w') →
  (w' = w ∧ (FS.is_dir (files w) (downloads /: name) = true ∨
             Str.startswith "." name = true)) ∨
  (∃ data name',
     files w !! (downloads /: name) = Some (File data) ∧
     files w' = moved downloads (files w) (folder_name_of [name])
                  name name' data).
Proof.
  intros Hroot. unfold organize_item. run. rewrite name_child.
  destruct (FS.is_dir (files w) (downloads /: name)) eqn:Hisdir.
  { intros [= <-]. left. auto. }
  destruct (Str.startswith "." name) eqn:Hhid.
  { intros [= <-]. left. auto. }
  rewrite folder_name_of_child.
  set (folder := folder_name_of [name]).
  assert (∀ n', downloads /: folder ≠ downloads /: folder /: n') as Hlen.
  { intros n' E%(f_equal length). unfold Path.child in E.
    rewrite !length_app in E. simpl in E. lia. }
  unfold FS.path_exists, FS.is_dir in *.
  destruct (files w !! (downloads /: folder)) as [x|] eqn:Hdir;
    cbn [negb]; run.
  - unfold unique_target_now. run.
    destruct (unique_target fuel (files w) (downloads /: folder) name)
      as [tp|] eqn:Htp; run; [|done].
    destruct (unique_target_child _ _ _ _ _ Htp) as [name' ->].
    assert (files w !! (downloads /: folder /: name') = None) as Hfree.
    { by eapply unique_target_fresh. }
    destruct (shutil_move (downloads /: name) (downloads /: folder /: name') w)
      as [[[]| |] w1] eqn:Hmove; try done.
    apply shutil_move_Ret in Hmove as (data & Hsrc & Hparent & ->);
      [|done|intros E; by rewrite E in Hisdir].
    rewrite parent_child in Hparent.
    rewrite relative_str_child. run. intros [= <-]. right.
    exists data, name'. split; [done|]. cbn [files]. unfold moved.
    by rewrite (insert_id (files w) _ Dir Hparent).
  - rewrite mkdir_fresh by (by rewrite ?parent_child). run.
    unfold unique_target_now. run.
    destruct (unique_target fuel _ (downloads /: folder) name)
      as [tp|] eqn:Htp; run; [|done].
    destruct (unique_target_child _ _ _ _ _ Htp) as [name' ->].
    assert (<[downloads /: folder := Dir]> (files w)
              !! (downloads /: folder /: name') = None) as Hfree.
    { by eapply unique_target_fresh. }
    match goal with |- context [shutil_move ?s ?d ?w0] =>
      destruct (shutil_move s d w0) as [[[]| |] w1] eqn:Hmove; try done
    end.
    apply shutil_move_Ret in Hmove as (data & Hsrc & Hparent & ->);
      cbn [files console] in *; [|done|].
    + rewrite relative_str_child. run. intros [= <-]. right.
      exists data, name'. split; [|done].
      destruct (decide (downloads /: folder = downloads /: name)) as [E|Hne].
      * rewrite E, lookup_insert_eq in Hsrc. done.
      * by rewrite lookup_insert_ne in Hsrc.
    + intros Hd.
      destruct (decide (downloads /: folder = downloads /: name)) as [E|Hne].
      * rewrite <- E. split; [|apply Hlen].
        unfold Path.child at 2. by apply prefix_app_r.
      * rewrite lookup_insert_ne in Hd by done. by rewrite Hd in Hisdir.
Qed.

(** A round that goes through keeps the root a directory and takes the
    entry it dealt with off the files still to move. *)
Lemma organize_item_live_loose (fuel : nat) (name : string)
    (rest : list string) (w w' : world) :
  files w !! downloads = Some Dir →
  loose_files_in downloads (files w) (name :: rest) →
  organize_item fuel downloads false name w = (Ret tt, w') →
  files w' !! downloads = Some Dir ∧ loose_files_in downloads (files w') rest.
Proof.
  intros Hroot Hloose Hrun.
  apply organize_item_live_Ret in Hrun
    as [[-> Hskip]|(data & name' & Hsrc & ->)]; [| |done].
  - split; [done|]. intros n d Hn Hvis.
    pose proof (Hloose n d Hn Hvis) as [->|?]%elem_of_cons; [|done].
    unfold FS.is_dir in Hskip. rewrite Hn in Hskip.
    destruct Hskip; congruence.
  - unfold moved. split; [by lookup_simpl|]. intros n d Hn Hvis.
    rewrite lookup_insert_ne in Hn by path_ne.
    destruct (decide (n = name)) as [->|Hne].
    { by rewrite lookup_delete_eq in Hn. }
    rewrite lookup_delete_ne in Hn by (by intros ?%(inj (Path.child _))).
    destruct (decide (downloads /: folder_name_of [name] = downloads /: n))
      as [E|Hne'].
    { by rewrite E, lookup_insert_eq in Hn. }
    rewrite lookup_insert_ne in Hn by done.
    pose proof (Hloose n d Hn Hvis) as [->|?]%elem_of_cons; done.
Qed.

(** The loop that goes through leaves no visible regular file directly
    in [downloads]. *)
Lemma for_each_live_loose (fuel : nat) (entries : list string) (w w' : world) :
  files w !! downloads = Some Dir →
  loose_files_in downloads (files w) entries →
  for_each entries (organize_item fuel downloads false) w = (Ret tt, w') →
  files w' !! downloads = Some Dir ∧ loose_files_in downloads (files w') [].
Proof.
  revert w. induction entries as [|name rest IH]; intros w Hroot Hloose.
  { by intros [= <-]. }
  simpl. run.
  destruct (organize_item fuel downloads false name w) as [[[]| |] w1] eqn:E;
    try done.
  destruct (organize_item_live_loose _ _ _ _ _ Hroot Hloose E) as [Hroot1 Hl1].
  by apply IH.
Qed.

(** Entries that are directories or hidden are all passed over. *)
Lemma for_each_all_skipped (fuel : nat) (dry_run : bool)
    (entries : list string) (w : world) :
  (∀ n, n ∈ entries →
        FS.is_dir (files w) (downloads /: n) = true ∨
        Str.startswith "." n = true) →
  for_each entries (organize_item fuel downloads dry_run) w = (Ret tt, w).
Proof.
  induction entries as [|name rest IH]; intros Hskip; [done|].
  erewrite for_each_step; [apply IH; intros n Hn; apply Hskip; set_solver|].
  destruct (Hskip name) as [Hd|Hh]; [set_solver| |].
  - apply organize_item_dir. unfold FS.is_dir in Hd.
    by destruct (files w !! (downloads /: name)) as [[]|].
  - by apply organize_item_hidden.
Qed.

End idempotence.

(** C10: a live run that returned 0 has left no visible regular file
    directly in the root: what it moved now lives one level down, in a
    folder.  A second live run over a listing of the root as it then is
    passes every entry over: it returns 0, prints its first and its
    last line, and hands the filesystem back unchanged. *)
Theorem organize_live_idempotent (fuel fuel' : nat)
    (entries entries' : list string) (downloads : list string)
    (w w1 : world) :
  FS.listing (files w) downloads entries →
  organize fuel entries downloads false w = (Ret 0%Z, w1) →
  FS.listing (files w1) downloads entries' →
  organize fuel' entries' downloads false w1
  = (Ret 0%Z,
     World (files w1)
       (console w1 ++ [(stdout, "Organizing: " +:+ Path.str downloads);
                       (stdout, "Done.")])).
Proof.
  intros [_ Hlist] Hrun [_ Hlist'].
  unfold organize, FS.path_exists, FS.is_dir in Hrun. revert Hrun. run.
  destruct (files w !! downloads) as [[|]|] eqn:Hroot; cbn [negb orb]; run;
    try done.
  match goal with |- context [for_each ?l ?b ?w0] =>
    destruct (for_each l b w0) as [[[]| |] w2] eqn:Hloop; try done
  end.
  intros [= <-].
  apply for_each_live_loose in Hloop as [Hroot2 Hloose]; cbn [files]; [|done|].
  - cbn [files console] in *.
    rewrite (organize_live_run downloads fuel' entries' _ (files w2)
               ((console w2 ++ [(stdout, "Done.")])
                ++ [(stdout, "Organizing: " +:+ Path.str downloads)]));
      cbn [files console]; [by rewrite <- app_assoc|done|].
    apply for_each_all_skipped. cbn [files]. intros n Hn.
    apply Hlist' in Hn as [[data|] Hn].
    + right. destruct (Str.startswith "." n) eqn:Hvis; [done|].
      by apply Hloose, not_elem_of_nil in Hn.
    + left. unfold FS.is_dir. by rewrite Hn.
  - intros n data Hn _. apply Hlist. by rewrite Hn.
Qed.

Lemma organize_live_idempotent_witness :
  let fs : gmap (list string) node :=
    list_to_map [ (["dl"], Dir); (["dl"; "a.txt"], File "text");
                  (["dl"; "b.jpg"], File "image");
                  (["dl"; ".hidden"], File "secret"); (["dl"; "sub"], Dir) ] in
  let w1 := snd (organize 0 ["a.txt"; "b.jpg"; ".hidden"; "sub"] ["dl"] false
                   (World fs [])) in
  organize 0 ["sub"; "Images"; "Documents"; ".hidden"] ["dl"] false w1
  = (Ret 0%Z,
     World (files w1)
       (console w1 ++ [(stdout, "Organizing: /dl"); (stdout, "Done.")])).
Proof.
  intros fs w1.
  apply (organize_live_idempotent 0 0 ["a.txt"; "b.jpg"; ".hidden"; "sub"]
           ["sub"; "Images"; "Documents"; ".hidden"] ["dl"] (World fs []) w1).
  - apply listing_check; apply (bool_decide_unpack _); by vm_compute.
  - by vm_compute.
  - apply listing_check; apply (bool_decide_unpack _); by vm_compute.
Defined.

(** * Further properties *)

(** ** The table *)

(** Every key of [TYPES] is spelled the way the lookup asks for it,
    in lowercase, so every configured extension can be hit. *)
Lemma TYPES_keys_lower : map_Forall (λ k _, Str.lower k = k) TYPES.
Proof.
  intros k v Hk. apply elem_of_map_to_list, list_elem_of_In in Hk.
  assert (forallb (λ kv, String.eqb (Str.lower kv.1) kv.1)
            (map_to_list TYPES) = true) as H by (by vm_compute).
  rewrite forallb_forall in H. by apply String.eqb_eq, (H (k, v)).
Qed.

(** Each extension of the table, written as in the table, is filed
    under the folder the table gives for it. *)
Theorem folder_for_ext_key (k v : string) :
  TYPES !! k = Some v → folder_for_ext k = v.
Proof.
  intros Hk. unfold folder_for_ext.
  by rewrite (TYPES_keys_lower k v Hk), Hk.
Qed.

Lemma folder_for_ext_key_witness : folder_for_ext "tiff" = "Images".
Proof. apply (folder_for_ext_key "tiff" "Images"). by vm_compute. Defined.

(** The default folder is kept for the extensions the table does not
    know: no extension of the table is filed under it. *)
Theorem folder_for_ext_default_iff (e : string) :
  folder_for_ext e = DEFAULT_FOLDER ↔ TYPES !! Str.lower e = None.
Proof.
  unfold folder_for_ext. split; [|by intros ->].
  destruct (TYPES !! Str.lower e) as [v|] eqn:E; [|done].
  simpl. intros ->. by destruct (TYPES_values _ _ E).
Qed.

(** Whatever the extension, its folder is one of the folder names. *)
Lemma folder_for_ext_in_names (e : string) : folder_for_ext e ∈ folder_names.
Proof.
  unfold folder_for_ext.
  destruct (TYPES !! Str.lower e) as [v|] eqn:E; simpl.
  - by destruct (TYPES_values _ _ E).
  - by repeat first [apply list_elem_of_here | apply list_elem_of_further].
Qed.

Lemma folder_name_in_names (item : list string) :
  folder_name_of item ∈ folder_names.
Proof.
  unfold folder_name_of.
  destruct (Str.truthy (ext_of item)); [apply folder_for_ext_in_names|].
  by repeat first [apply list_elem_of_here | apply list_elem_of_further].
Qed.

(** Whatever the entry, with or without an extension, known or not,
    it is filed under one of nine folders. *)
Theorem folder_name_of_range (item : list string) :
  folder_name_of item ∈ folder_names.
Proof.
  unfold folder_name_of, ext_of.
  destruct (Str.truthy (Path.suffix item)).
  - destruct (Str.truthy _); [apply folder_for_ext_in_names|].
    by repeat first [apply list_elem_of_here | apply list_elem_of_further].
  - by repeat first [apply list_elem_of_here | apply list_elem_of_further].
Qed.

(** ** Letter case of a name *)

Section name_case.

Lemma lower_ascii_dot (a : ascii) :
  Ascii.eqb (Str.lower_ascii a) "." = Ascii.eqb a ".".
Proof. by destruct a as [[] [] [] [] [] [] [] []]. Qed.

Lemma rfind_cons_none (c a : ascii) (s : string) :
  Str.rfind c (String a s) = (-1)%Z ↔
  Ascii.eqb a c = false ∧ Str.rfind c s = (-1)%Z.
Proof.
  simpl. pose proof (rfind_lt c s) as Hlt.
  destruct (Z.leb_spec 0 (Str.rfind c s)); [lia|].
  destruct (Ascii.eqb a c); [|split; [intros _; split; [done|]|done]].
  - split; [lia|by intros [? _]].
  - clear Hlt. induction s as [|b s IH]; simpl in *; [done|].
    destruct (Z.leb_spec 0 (Str.rfind c s)); [lia|].
    destruct (Ascii.eqb b c); [lia|done].
Qed.

(** A name has no dot, or splits at its last dot. *)
Lemma rfind_split (s : string) :
  Str.rfind "." s = (-1)%Z ∨
  ∃ a t, s = a +:+ String "." t ∧ Str.rfind "." t = (-1)%Z.
Proof.
  induction s as [|x s IH]; [by left|].
  destruct IH as [IH|(a & t & -> & Ht)].
  - destruct (Ascii.eqb_spec x ".") as [->|Hx].
    + right. by exists "", s.
    + left. apply rfind_cons_none. split; [|done].
      by apply Ascii.eqb_neq.
  - right. by exists (String x a), t.
Qed.

Lemma rfind_app_dot (a t : string) :
  Str.rfind "." t = (-1)%Z → Str.rfind "." (a +:+ String "." t) = Str.len a.
Proof.
  intros Ht. unfold Str.len.
  induction a as [|x a IH].
  - simpl. by rewrite Ht.
  - rewrite string_app_cons.
    change (Str.rfind "." (String x (a +:+ String "." t)))
      with (let r := Str.rfind "." (a +:+ String "." t) in
            if (0 <=? r)%Z then (r + 1)%Z
            else if Ascii.eqb x "." then 0%Z else (-1)%Z).
    rewrite IH. simpl.
    destruct (Z.leb_spec 0 (Z.of_nat (String.length a))); lia.
Qed.

Lemma substring_past_prefix (a b : string) :
  substring (String.length a) (String.length (a +:+ b) - String.length a)
    (a +:+ b) = b.
Proof.
  induction a as [|x a IH].
  - simpl. by rewrite Nat.sub_0_r, substring_all.
  - rewrite string_app_cons. exact IH.
Qed.

(** The suffix of a name, read off its split at the last dot. *)
Lemma suffix_split (a t : string) :
  Str.rfind "." t = (-1)%Z →
  Path.suffix [a +:+ String "." t]
  = if Str.truthy a && Str.truthy t then String "." t else "".
Proof.
  intros Ht. unfold Path.suffix, Path.name. simpl.
  rewrite (rfind_app_dot a t Ht). unfold Str.len, Str.slice_from.
  rewrite Nat2Z.id, substring_past_prefix, string_app_length. simpl String.length.
  destruct a as [|x a], t as [|y t]; simpl Str.truthy; simpl andb;
    try done.
  - destruct (Z.ltb_spec (Z.of_nat (S (String.length a)))
                (Z.of_nat (S (String.length a + 1)) - 1)); [lia|done].
  - destruct (Z.ltb_spec (Z.of_nat (S (String.length a)))
                (Z.of_nat (S (String.length a + S (S (String.length t)))) - 1));
      [done|lia].
Qed.

Lemma suffix_no_dot (s : string) :
  Str.rfind "." s = (-1)%Z → Path.suffix [s] = "".
Proof. intros H. unfold Path.suffix, Path.name. simpl. by rewrite H. Qed.

Lemma kelvin_prefix_app_dot (c : ascii) (a t : string) :
  kelvin_prefix (String c (a +:+ String "." t)) = kelvin_prefix (String c a).
Proof.
  destruct a as [|c2 [|c3 a]]; simpl; [| |done].
  - destruct t; [done|]. unfold Str.is_kelvin. simpl. by rewrite andb_false_r.
  - unfold Str.is_kelvin. simpl. by rewrite andb_false_r.
Qed.

Lemma lower_dot (t : string) :
  Str.lower (String "." t) = String "." (Str.lower t).
Proof. by rewrite lower_cons by (by apply kelvin_prefix_head). Qed.

(** Lowercasing goes through the split at a dot. *)
Lemma lower_app_dot (a t : string) :
  Str.lower (a +:+ String "." t)
  = Str.lower a +:+ String "." (Str.lower t).
Proof.
  induction a as [|a IH|c a K IH] using lower_ind.
  - apply lower_dot.
  - rewrite !string_app_cons, !lower_kelvin, IH. done.
  - rewrite string_app_cons, !lower_cons, IH;
      [done|done|by rewrite kelvin_prefix_app_dot].
Qed.

Lemma rfind_lower_none (s : string) :
  Str.rfind "." s = (-1)%Z → Str.rfind "." (Str.lower s) = (-1)%Z.
Proof.
  induction s as [|s IH|c s K IH] using lower_ind; [done| |].
  - rewrite lower_kelvin. rewrite !rfind_cons_none.
    intros (_ & _ & _ & H). auto.
  - rewrite lower_cons by done. rewrite !rfind_cons_none, lower_ascii_dot.
    intros [? ?]. auto.
Qed.

Lemma suffix_lower (name : string) :
  Path.suffix [Str.lower name] = Str.lower (Path.suffix [name]).
Proof.
  destruct (rfind_split name) as [Hnone|(a & t & -> & Ht)].
  - by rewrite !suffix_no_dot by auto using rfind_lower_none.
  - rewrite lower_app_dot, !suffix_split by auto using rfind_lower_none.
    rewrite !truthy_lower. destruct (_ && _); [|done].
    by rewrite lower_dot.
Qed.

Lemma slice_from_1 (c : ascii) (t : string) :
  Str.slice_from 1 (String c t) = t.
Proof.
  unfold Str.slice_from. simpl. by rewrite Nat.sub_0_r, substring_all.
Qed.

(** Names that differ in letter case only are filed under the same
    folder. *)
Theorem folder_name_of_lower (d : list string) (name : string) :
  folder_name_of (d /: Str.lower name) = folder_name_of (d /: name).
Proof.
  rewrite !folder_name_of_child. unfold folder_name_of, ext_of.
  rewrite suffix_lower, truthy_lower.
  destruct (suffix_dot [name]) as [->|[t ->]]; [done|].
  by rewrite lower_dot, !slice_from_1, lower_idemp.
Qed.

End name_case.

(** ** More on collision resolution *)

Section unique_target_more.

Variable dest_dir : list string.

(** The loop looks at nothing but whether its candidates are taken. *)
Lemma probe_local (fs1 fs2 : gmap (list string) node) (fuel : nat)
    (stem suffix : string) (i : nat) :
  (∀ j, FS.path_exists fs1 (candidate dest_dir stem suffix j)
        = FS.path_exists fs2 (candidate dest_dir stem suffix j)) →
  probe fuel fs1 dest_dir stem suffix i = probe fuel fs2 dest_dir stem suffix i.
Proof.
  intros Hsame. revert i. induction fuel as [|fuel IH]; intros i; [done|].
  simpl. by rewrite IH, Hsame.
Qed.

Lemma path_exists_local (fs1 fs2 : gmap (list string) node) (p : list string) :
  (is_Some (fs1 !! p) ↔ is_Some (fs2 !! p)) →
  FS.path_exists fs1 p = FS.path_exists fs2 p.
Proof.
  intros Hsame. unfold FS.path_exists.
  destruct (fs1 !! p) eqn:E1, (fs2 !! p) eqn:E2; try done.
  - destruct (proj1 Hsame) as [? ?]; [by eexists|done].
  - destruct (proj2 Hsame) as [? ?]; [by eexists|done].
Qed.

(** What sits at [dest_dir] itself does not matter. *)
Lemma unique_target_insert_dir (fs : gmap (list string) node) (x : node)
    (fuel : nat) (name : string) :
  unique_target fuel (<[dest_dir := x]> fs) dest_dir name
  = unique_target fuel fs dest_dir name.
Proof.
  assert (∀ n, is_Some (<[dest_dir := x]> fs !! (dest_dir /: n))
               ↔ is_Some (fs !! (dest_dir /: n))) as Hsame.
  { intros n. rewrite lookup_insert_ne; [done|]. unfold Path.child.
    intros E%(f_equal length). rewrite length_app in E. simpl in E. lia. }
  unfold unique_target.
  rewrite (path_exists_local _ fs) by apply Hsame.
  rewrite (probe_local _ fs); [done|].
  intros j. apply path_exists_local, Hsame.
Qed.

End unique_target_more.

(** For a [name] that is one path component, [unique_target] looks at
    nothing but which names directly in [dest_dir] are taken: two
    filesystems that agree on that get the same answer. *)
Theorem unique_target_local (dest_dir : list string)
    (fs1 fs2 : gmap (list string) node) (fuel : nat) (name : string) :
  Path.component name = true →
  (∀ n, Path.component n = true →
        is_Some (fs1 !! (dest_dir /: n)) ↔ is_Some (fs2 !! (dest_dir /: n))) →
  unique_target fuel fs1 dest_dir name = unique_target fuel fs2 dest_dir name.
Proof.
  intros Hname Hsame. unfold unique_target.
  rewrite (path_exists_local fs1 fs2 (dest_dir /: name))
    by (by apply Hsame).
  rewrite (probe_local dest_dir fs1 fs2); [done|].
  intros j. apply path_exists_local. unfold candidate. apply Hsame.
  unfold Path.stem, Path.suffix. rewrite name_child.
  by apply candidate_component.
Qed.

Lemma unique_target_local_witness :
  let fs1 : gmap (list string) node :=
    list_to_map [ (["d"], Dir); (["d"; "a.txt"], File "1");
                  (["elsewhere"], Dir) ] in
  let fs2 : gmap (list string) node :=
    list_to_map [ (["d"; "a.txt"], Dir); (["d"; "a.txt"; "below"], File "2") ] in
  Path.component "a.txt" = true ∧
  unique_target 2 fs1 ["d"] "a.txt" = unique_target 2 fs2 ["d"] "a.txt".
Proof.
  intros fs1 fs2. split; [reflexivity|].
  apply (unique_target_local ["d"] fs1 fs2 2 "a.txt"); [reflexivity|].
  intros n _. rewrite <- !elem_of_children.
  assert (children fs1 ["d"] = children fs2 ["d"]) as -> by (by vm_compute).
  done.
Defined.

Section keeps_suffix.

Lemma len_app (a b : string) : Str.len (a +:+ b) = (Str.len a + Str.len b)%Z.
Proof. unfold Str.len. rewrite string_app_length. lia. Qed.

(** Where [rfind] finds the character, nothing after it holds it. *)
Lemma rfind_decompose (c : ascii) (s : string) :
  (0 ≤ Str.rfind c s)%Z →
  ∃ a t, s = a +:+ String c t ∧ Str.len a = Str.rfind c s ∧
         Str.rfind c t = (-1)%Z.
Proof.
  induction s as [|x s IH]; simpl; [lia|].
  destruct (Z.leb_spec 0 (Str.rfind c s)) as [Hr|Hr].
  - intros _. destruct (IH Hr) as (a & t & -> & Hlen & Ht).
    exists (String x a), t. split; [done|]. split; [|done].
    unfold Str.len in *. simpl. lia.
  - destruct (Ascii.eqb_spec x c) as [->|]; [|lia].
    intros _. exists "", s. split; [done|]. split; [done|].
    pose proof (rfind_lt c s). 
    assert (-1 ≤ Str.rfind c s)%Z; [|lia].
    clear. induction s as [|y s IH]; simpl; [lia|].
    destruct (Z.leb_spec 0 (Str.rfind c s)); [lia|].
    destruct (Ascii.eqb y c); lia.
Qed.

(** The last occurrence in [a ++ c :: t], when [t] has none. *)
Lemma rfind_app_last (c : ascii) (a t : string) :
  Str.rfind c t = (-1)%Z → Str.rfind c (a +:+ String c t) = Str.len a.
Proof.
  intros Ht. induction a as [|x a IH].
  - rewrite string_app_nil_l. simpl. rewrite Ht. simpl.
    by rewrite Ascii.eqb_refl.
  - rewrite string_app_cons. simpl. rewrite IH.
    unfold Str.len. simpl.
    destruct (Z.leb_spec 0 (Z.of_nat (String.length a))); lia.
Qed.

Lemma substring_app_r (a b : string) :
  substring (String.length a) (String.length b) (a +:+ b) = b.
Proof.
  induction a as [|x a IH].
  - rewrite string_app_nil_l. apply substring_all.
  - rewrite string_app_cons. simpl. apply IH.
Qed.

Lemma substring_app_l (a b : string) :
  substring 0 (String.length a) (a +:+ b) = a.
Proof.
  induction a as [|x a IH].
  - rewrite string_app_nil_l. by destruct b.
  - rewrite string_app_cons. simpl. by rewrite IH.
Qed.

(** A name with a suffix is a non-empty stem, a dot and a non-empty
    rest without dots. *)
Lemma split_with_suffix (name : string) :
  Path.suffix [name] ≠ "" →
  ∃ a t, name = a +:+ String "." t ∧ a ≠ "" ∧ t ≠ "" ∧
         Str.rfind "." t = (-1)%Z ∧
         Path.stem [name] = a ∧ Path.suffix [name] = String "." t.
Proof.
  unfold Path.suffix, Path.stem, Path.name. simpl.
  destruct (_ && _) eqn:E; [|done]. intros _.
  apply andb_prop in E as [H0%Z.ltb_lt H1%Z.ltb_lt].
  destruct (rfind_decompose "." name) as (a & t & Hname & Hlen & Ht); [lia|].
  exists a, t. rewrite <- Hlen in *. rewrite Hname in *.
  rewrite len_app in H1. unfold Str.len in *. simpl in H1.
  split; [done|]. split; [by intros ->|]. split; [by intros ->; simpl in H1; lia|].
  split; [done|].
  unfold Str.slice_to, Str.slice_from.
  rewrite Nat2Z.id, string_app_length.
  replace (String.length a + String.length (String "." t) - String.length a)%nat
    with (String.length (String "." t)) by lia.
  by rewrite substring_app_l, substring_app_r.
Qed.

(** Whatever is put between the stem and the suffix, the suffix stays
    the suffix. *)
Lemma suffix_insert (a t mid : string) :
  a ≠ "" → t ≠ "" → Str.rfind "." t = (-1)%Z →
  Path.suffix [a +:+ mid +:+ String "." t] = String "." t.
Proof.
  intros Ha Ht Hdot. unfold Path.suffix, Path.name. simpl.
  rewrite <- string_app_assoc, rfind_app_last by done.
  rewrite !len_app. unfold Str.len, Str.slice_from.
  assert (0 < String.length a)%nat by (destruct a; [done|simpl; lia]).
  assert (0 < String.length t)%nat by (destruct t; [done|simpl; lia]).
  rewrite string_app_length.
  destruct (_ && _) eqn:E.
  - rewrite <- Nat2Z.inj_add, Nat2Z.id, <- string_app_length.
    rewrite string_app_length.
    replace (_ + _ - _)%nat with (String.length (String "." t)) by lia.
    rewrite <- string_app_length. apply substring_app_r.
  - apply andb_false_iff in E as [E%Z.ltb_ge|E%Z.ltb_ge]; simpl in E; lia.
Qed.

(** The name of a candidate for a name with a suffix has that suffix. *)
Lemma suffix_renamed (name : string) (i : nat) :
  Path.suffix [name] ≠ "" →
  Path.suffix [Path.stem [name] +:+ " (" +:+ pretty i +:+ ")"
               +:+ Path.suffix [name]]
  = Path.suffix [name].
Proof.
  intros Hsuffix.
  destruct (split_with_suffix name Hsuffix)
    as (a & t & Hname & Ha & Ht & Hdot & -> & ->).
  pose proof (suffix_insert a t (" (" +:+ pretty i +:+ ")") Ha Ht Hdot) as H.
  by rewrite !string_app_assoc in H.
Qed.

(** The counter goes before the extension: every candidate for a name
    that has a suffix has that suffix, and so is filed under the same
    folder as the name. *)
Theorem candidate_keeps_suffix (dest_dir : list string) (name : string)
    (i : nat) :
  Path.suffix [name] ≠ "" →
  let renamed := candidate dest_dir (Path.stem (dest_dir /: name))
                   (Path.suffix (dest_dir /: name)) i in
  Path.suffix renamed = Path.suffix (dest_dir /: name) ∧
  folder_name_of renamed = folder_name_of (dest_dir /: name).
Proof.
  intros Hsuffix renamed.
  assert (Path.suffix renamed = Path.suffix (dest_dir /: name)) as Hsame.
  { pose proof (suffix_renamed name i Hsuffix) as H.
    unfold renamed, candidate, Path.suffix, Path.stem in *.
    rewrite !name_child. exact H. }
  split; [done|]. unfold folder_name_of, ext_of. by rewrite Hsame.
Qed.

Lemma candidate_keeps_suffix_witness :
  Path.suffix (candidate ["d"] (Path.stem ["d"; "archive.tar.gz"])
                 (Path.suffix ["d"; "archive.tar.gz"]) 12) = ".gz" ∧
  folder_name_of (candidate ["d"] (Path.stem ["d"; "archive.tar.gz"])
                 (Path.suffix ["d"; "archive.tar.gz"]) 12) = "Archives".
Proof.
  destruct (candidate_keeps_suffix ["d"] "archive.tar.gz" 12) as [H1 H2];
    [by vm_compute|].
  split; (etrans; [first [exact H1 | exact H2]|by vm_compute]).
Defined.

End keeps_suffix.

(** ** Live mode, whatever the outcome *)

Section live_any_outcome.

Variable downloads : list string.

(** What [unique_target] returns is the name itself or one of its
    candidates. *)
Lemma unique_target_shape (fs : gmap (list string) node)
    (dest_dir : list string) (name name' : string) (fuel : nat) :
  unique_target fuel fs dest_dir name = Some (dest_dir /: name') →
  name' = name ∨
  ∃ i, (1 ≤ i)%nat ∧
       name' = Path.stem [name] +:+ " (" +:+ pretty i +:+ ")"
               +:+ Path.suffix [name].
Proof.
  unfold unique_target.
  destruct (FS.path_exists fs (dest_dir /: name)); cbn [negb].
  - intros (i & Hi & E & _)%probe_Some. right. exists i. split; [lia|].
    unfold candidate, Path.stem, Path.suffix in E. rewrite !name_child in E.
    by apply (inj (Path.child dest_dir)) in E.
  - intros [= E%(inj (Path.child dest_dir))]. by left.
Qed.

(** A move to a free name either goes through, from a regular file
    into a directory, or raises and leaves everything as it was. *)
Lemma shutil_move_outcome (src dst : list string) (w : world) :
  files w !! dst = None →
  (files w !! src = Some Dir → src `prefix_of` dst ∧ src ≠ dst) →
  (∃ data, files w !! src = Some (File data) ∧
           files w !! Path.parent dst = Some Dir ∧
           shutil_move src dst w
           = (Ret tt, World (<[dst := File data]> (delete src (files w)))
                        (console w))) ∨
  (∃ e, shutil_move src dst w = (Raise e, w)).
Proof.
  intros Hdst Hsrc. unfold shutil_move, FS.is_dir in *. run.
  rewrite Hdst. run. unfold Os.rename.
  destruct (files w !! src) as [[data|]|]; [| |by eauto].
  - destruct (files w !! Path.parent dst) as [[|]|]; [by eauto| |by eauto].
    rewrite Hdst. left. eauto.
  - destruct Hsrc as [Hpre Hne]; [done|].
    rewrite decide_False, decide_True by done. eauto.
Qed.

Lemma child_ne_grandchild (d : list string) (a b c : string) :
  d /: a ≠ d /: b /: c.
Proof. path_ne. Qed.

Lemma child_ne_self (d : list string) (a : string) : d ≠ d /: a.
Proof. path_ne. Qed.

(** One round of the live loop leaves the filesystem as it was, or
    with the folder made, or with the folder there and the file moved
    into it. *)
Lemma organize_item_live_outcome (fuel : nat) (name : string) (w : world) :
  files w !! downloads = Some Dir →
  let result := organize_item fuel downloads false name w in
  let folder := folder_name_of [name] in
  files (snd result) = files w ∨
  (files w !! (downloads /: folder) = None ∧
   files (snd result) = <[downloads /: folder := Dir]> (files w)) ∨
  (∃ data name',
     Str.startswith "." name = false ∧
     files w !! (downloads /: name) = Some (File data) ∧
     (files w !! (downloads /: folder) = None ∨
      files w !! (downloads /: folder) = Some Dir) ∧
     files w !! (downloads /: folder /: name') = None ∧
     (name' = name ∨
      ∃ i, (1 ≤ i)%nat ∧
           name' = Path.stem [name] +:+ " (" +:+ pretty i +:+ ")"
                   +:+ Path.suffix [name]) ∧
     fst result = Ret tt ∧
     files (snd result) = moved downloads (files w) folder name name' data).
Proof.
  intros Hroot. cbv zeta. unfold organize_item. run. rewrite name_child.
  destruct (FS.is_dir (files w) (downloads /: name)) eqn:Hisdir; [by left|].
  destruct (Str.startswith "." name) eqn:Hhid; [by left|].
  rewrite folder_name_of_child.
  set (folder := folder_name_of [name]).
  unfold FS.path_exists, FS.is_dir in *.
  destruct (files w !! (downloads /: folder)) as [x|] eqn:Hdir;
    cbn [negb]; run.
  - unfold unique_target_now. run.
    destruct (unique_target fuel (files w) (downloads /: folder) name)
      as [tp|] eqn:Htp; run; [|by left].
    destruct (unique_target_child _ _ _ _ _ Htp) as [name' ->].
    pose proof (unique_target_fresh _ _ _ _ _ Htp) as Hfree.
    pose proof (unique_target_shape _ _ _ _ _ Htp) as Hshape.
    destruct (shutil_move_outcome (downloads /: name)
                (downloads /: folder /: name') w) as
      [(data & Hsrc & Hparent & ->)|[e ->]]; [done| |  |by left].
    { intros E. by rewrite E in Hisdir. }
    rewrite parent_child, Hdir in Hparent. injection Hparent as ->.
    rewrite relative_str_child. run. right. right.
    exists data, name'. split_and!; try done; [by right|].
    cbn [files]. unfold moved. by rewrite (insert_id (files w) _ Dir Hdir).
  - rewrite mkdir_fresh by (by rewrite ?parent_child). run.
    unfold unique_target_now. run.
    destruct (unique_target fuel _ (downloads /: folder) name)
      as [tp|] eqn:Htp; run; [|by right; left].
    destruct (unique_target_child _ _ _ _ _ Htp) as [name' ->].
    pose proof (unique_target_fresh _ _ _ _ _ Htp) as Hfree.
    pose proof (unique_target_shape _ _ _ _ _ Htp) as Hshape.
    match goal with |- context [shutil_move ?s ?d ?w0] =>
      destruct (shutil_move_outcome s d w0) as
        [(data & Hsrc & Hparent & ->)|[e ->]]; cbn [files console] in *
    end; [done| | |by right; left].
    + intros Hd.
      destruct (decide (downloads /: folder = downloads /: name)) as [E|Hne].
      * rewrite <- E. split; [|apply child_ne_self].
        unfold Path.child at 2. by apply prefix_app_r.
      * rewrite lookup_insert_ne in Hd by done. by rewrite Hd in Hisdir.
    + rewrite relative_str_child. run. right. right.
      exists data, name'.
      assert (downloads /: folder ≠ downloads /: name) as Hne.
      { intros E. by rewrite E, lookup_insert_eq in Hsrc. }
      rewrite lookup_insert_ne in Hsrc by done.
      rewrite lookup_insert_ne in Hfree by apply child_ne_grandchild.
      split_and!; try done. by left.
Qed.

End live_any_outcome.

Section kept_facts.

Variable downloads : list string.

(** No folder name is a hidden name. *)
Lemma folder_name_visible (item : list string) :
  Str.startswith "." (folder_name_of item) = false.
Proof.
  pose proof (folder_name_in_names item) as H. unfold folder_names in H.
  repeat (apply elem_of_cons in H as [->|H]; [done|]).
  by apply elem_of_nil in H.
Qed.

Lemma kept_refl (fs : gmap (list string) node) : kept downloads fs fs.
Proof. unfold kept. split_and!; auto. Qed.

Lemma kept_trans (fs fs1 fs2 : gmap (list string) node) :
  kept downloads fs fs1 → kept downloads fs1 fs2 → kept downloads fs fs2.
Proof.
  intros (Ha & Hc & Hh & Hf & Hg & Hin1 & Hr)
         (Ha' & Hc' & Hh' & Hf' & Hg' & Hin2 & Hr').
  unfold kept. split_and!.
  - intros p x Hp Hx. apply Ha'; [apply Ha|]; done.
  - intros n data Hn.
    destruct (Hc n data Hn) as [Hstay|(n' & Hthere & Hfree & Hname)].
    + destruct (Hc' n data Hstay) as [Hstay'|(n' & Hthere & Hfree & Hname)];
        [by left|].
      right. exists n'. split; [done|]. split; [|done].
      destruct (fs !! (downloads /: folder_name_of [n] /: n')) as [x|] eqn:E;
        [|done].
      apply Ha in E; [congruence|].
      right. intros m. apply not_eq_sym, child_ne_grandchild.
    + right. exists n'. split; [|done]. apply Ha'; [done|].
      right. intros m. apply not_eq_sym, child_ne_grandchild.
  - intros n Hn. by rewrite Hh', Hh.
  - intros p H1 H2. by rewrite Hf', Hf.
  - intros n Hnew. destruct (Hg n Hnew) as [Hnone|[Hdir Hin]].
    + by apply Hg'.
    + right. split; [|done]. apply Ha'; auto.
  - intros f n Hnew.
    destruct (Hin1 f n Hnew)
      as [Hnone|(Hin & Hdir & name & data & Hwas & Hf1 & Hthere)].
    + destruct (Hin2 f n Hnone)
        as [Hnone'|(Hin & Hdir & name & data & Hwas & Hf1 & Hthere)];
        [by left|].
      right. split; [done|]. split; [done|].
      exists name, data. auto.
    + right. split; [done|]. split; [apply Ha'; auto|].
      exists name, data. split; [done|]. split; [done|].
      apply Ha'; [done|].
      right. intros m. apply not_eq_sym, child_ne_grandchild.
  - intros n data Hfile. auto.
Qed.

(** Making the folder. *)
Lemma kept_mkdir (fs : gmap (list string) node) (item : list string) :
  fs !! (downloads /: folder_name_of item) = None →
  kept downloads fs (<[downloads /: folder_name_of item := Dir]> fs).
Proof.
  intros Hnone. unfold kept. split_and!.
  - intros p x Hp _. rewrite lookup_insert_ne; [done|]. congruence.
  - intros n data Hn. left. rewrite lookup_insert_ne; [done|]. congruence.
  - intros n Hn. rewrite lookup_insert_ne; [done|].
    intros E%(inj (Path.child downloads)).
    rewrite <- E, folder_name_visible in Hn. done.
  - intros p Hp _. rewrite lookup_insert_ne; [done|]. apply not_eq_sym, Hp.
  - intros n Hn.
    destruct (decide (folder_name_of item = n)) as [<-|Hne].
    + right. rewrite lookup_insert_eq. split; [done|].
      apply folder_name_in_names.
    + left. rewrite lookup_insert_ne; [done|].
      by intros E%(inj (Path.child downloads)).
  - intros f n Hnew. left.
    rewrite lookup_insert_ne; [done|]. apply child_ne_grandchild.
  - intros n data.
    destruct (decide (folder_name_of item = n)) as [<-|Hne].
    + by rewrite lookup_insert_eq.
    + rewrite lookup_insert_ne; [done|].
      by intros E%(inj (Path.child downloads)).
Qed.

(** Moving a visible regular file to a free name in its folder. *)
Lemma kept_moved (fs : gmap (list string) node) (name name' data : string) :
  Str.startswith "." name = false →
  fs !! (downloads /: name) = Some (File data) →
  fs !! (downloads /: folder_name_of [name]) = None ∨
  fs !! (downloads /: folder_name_of [name]) = Some Dir →
  fs !! (downloads /: folder_name_of [name] /: name') = None →
  (name' = name ∨
   ∃ i, (1 ≤ i)%nat ∧
        name' = Path.stem [name] +:+ " (" +:+ pretty i +:+ ")"
                +:+ Path.suffix [name]) →
  kept downloads fs (moved downloads fs (folder_name_of [name]) name name' data).
Proof.
  intros Hvis Hitem Hdir Hfree Hshape.
  set (folder := folder_name_of [name]) in *.
  assert (downloads /: folder ≠ downloads /: name) as Hne.
  { intros E. rewrite E in Hdir. destruct Hdir; congruence. }
  unfold kept, moved. split_and!.
  - intros p x Hp Hx.
    rewrite lookup_insert_ne by congruence.
    rewrite lookup_delete_ne.
    2:{ intros <-. destruct Hx as [->|Hx]; [congruence|by apply (Hx name)]. }
    destruct (decide (downloads /: folder = p)) as [<-|Hne'].
    + rewrite lookup_insert_eq. destruct Hdir; congruence.
    + by rewrite lookup_insert_ne.
  - intros n d Hn.
    destruct (decide (n = name)) as [->|Hn'].
    + right. exists name'. assert (d = data) as -> by congruence.
      fold folder. by rewrite lookup_insert_eq.
    + left. rewrite lookup_insert_ne by apply not_eq_sym, child_ne_grandchild.
      rewrite lookup_delete_ne by (by intros E%(inj (Path.child downloads))).
      rewrite lookup_insert_ne; [done|].
      intros E. rewrite E in Hdir. destruct Hdir; congruence.
  - intros n Hn.
    rewrite lookup_insert_ne by apply not_eq_sym, child_ne_grandchild.
    rewrite lookup_delete_ne by (intros E%(inj (Path.child downloads)); congruence).
    rewrite lookup_insert_ne; [done|].
    intros E%(inj (Path.child downloads)).
    rewrite <- E in Hn. unfold folder in Hn.
    by rewrite folder_name_visible in Hn.
  - intros p H1 H2.
    rewrite lookup_insert_ne by apply not_eq_sym, H2.
    rewrite lookup_delete_ne by apply not_eq_sym, H1.
    by rewrite lookup_insert_ne by apply not_eq_sym, H1.
  - intros n Hn.
    rewrite lookup_insert_ne by apply not_eq_sym, child_ne_grandchild.
    rewrite lookup_delete_ne by (intros E%(inj (Path.child downloads)); congruence).
    destruct (decide (folder = n)) as [<-|Hne'].
    + right. rewrite lookup_insert_eq. split; [done|].
      apply folder_name_in_names.
    + left. rewrite lookup_insert_ne; [done|].
      by intros E%(inj (Path.child downloads)).
  - intros f n Hnew.
    destruct (decide (downloads /: folder /: name' = downloads /: f /: n))
      as [E|Hne'].
    + right. unfold Path.child in E.
      apply app_inj_tail in E as [E <-].
      apply app_inj_tail in E as [_ <-].
      split; [apply folder_name_in_names|]. split.
      * rewrite lookup_insert_ne
          by apply not_eq_sym, child_ne_grandchild.
        rewrite lookup_delete_ne by congruence.
        by rewrite lookup_insert_eq.
      * exists name, data. by rewrite lookup_insert_eq.
    + left. rewrite lookup_insert_ne by done.
      rewrite lookup_delete_ne by apply child_ne_grandchild.
      by rewrite lookup_insert_ne by apply child_ne_grandchild.
  - intros n d.
    rewrite lookup_insert_ne by apply not_eq_sym, child_ne_grandchild.
    destruct (decide (n = name)) as [->|Hn'].
    + by rewrite lookup_delete_eq.
    + rewrite lookup_delete_ne
        by (by intros E%(inj (Path.child downloads))).
      destruct (decide (folder = n)) as [<-|Hne'].
      * by rewrite lookup_insert_eq.
      * rewrite lookup_insert_ne; [done|].
        by intros E%(inj (Path.child downloads)).
Qed.

(** One round of the live loop, whatever its outcome. *)
Lemma organize_item_live_kept (fuel : nat) (name : string) (w : world) :
  files w !! downloads = Some Dir →
  kept downloads (files w)
    (files (snd (organize_item fuel downloads false name w))).
Proof.
  intros Hroot.
  destruct (organize_item_live_outcome downloads fuel name w Hroot)
    as [->|[[Hnone ->]|(data & name' & Hvis & Hitem & Hdir & Hfree & Hshape
                         & _ & ->)]].
  - apply kept_refl.
  - by apply kept_mkdir.
  - by apply kept_moved.
Qed.

(** The live loop, whatever its outcome. *)
Lemma for_each_live_kept (fuel : nat) (entries : list string) (w : world) :
  files w !! downloads = Some Dir →
  kept downloads (files w)
    (files (snd (for_each entries (organize_item fuel downloads false) w))).
Proof.
  revert w. induction entries as [|name rest IH]; intros w Hroot.
  { apply kept_refl. }
  simpl. run.
  pose proof (organize_item_live_kept fuel name w Hroot) as Hstep.
  destruct (organize_item fuel downloads false name w) as [[[]| |] w1];
    cbn [snd] in *; try done.
  eapply kept_trans; [exact Hstep|]. apply IH.
  apply (proj1 Hstep); auto.
Qed.

(** The live run, whatever its outcome. *)
Lemma organize_live_kept (fuel : nat) (entries : list string) (w : world) :
  kept downloads (files w)
    (files (snd (organize fuel entries downloads false w))).
Proof.
  unfold organize, FS.path_exists, FS.is_dir. run.
  destruct (files w !! downloads) as [[|]|] eqn:Hroot; cbn [negb orb]; run;
    try apply kept_refl.
  match goal with |- context [for_each ?l ?b ?w0] =>
    pose proof (for_each_live_kept fuel l w0 Hroot) as Hloop;
    destruct (for_each l b w0) as [[[]| |] w1]
  end; done.
Qed.

End kept_facts.

(** ** What a run keeps *)

(** Simulate mode hands the filesystem back as it got it. *)
Lemma organize_dry_files (fuel : nat) (entries : list string)
    (downloads : list string) (w : world) :
  files (snd (organize fuel entries downloads true w)) = files w.
Proof.
  unfold organize. run. destruct (_ || _); [done|]. run.
  set (w1 := World _ _).
  pose proof (proj1 (for_each_dry downloads fuel entries w1)) as Hfs.
  destruct (for_each entries _ w1) as [[[]| |] w2]; simpl in *; done.
Qed.

(** A live run never removes or replaces a directory, and never
    touches an entry that is not directly in the root: files already in
    a folder, what lies in subdirectories, what lies outside the root.
    This holds for runs that raise or run out of fuel as well. *)
Theorem organize_live_nothing_overwritten (fuel : nat)
    (entries : list string) (downloads : list string) (w : world)
    (p : list string) (x : node) :
  files w !! p = Some x →
  x = Dir ∨ (∀ n, p ≠ downloads /: n) →
  files (snd (organize fuel entries downloads false w)) !! p = Some x.
Proof.
  intros Hp Hx.
  destruct (organize_live_kept downloads fuel entries w) as [Ha _].
  by apply Ha.
Qed.

Lemma organize_live_nothing_overwritten_witness :
  let fs : gmap (list string) node :=
    list_to_map [ (["dl"], Dir); (["dl"; "report.pdf"], File "new");
                  (["dl"; "PDFs"], Dir);
                  (["dl"; "PDFs"; "report.pdf"], File "old") ] in
  files (snd (organize 1 ["PDFs"; "report.pdf"] ["dl"] false (World fs [])))
    !! ["dl"; "PDFs"; "report.pdf"] = Some (File "old").
Proof.
  intros fs.
  apply (organize_live_nothing_overwritten 1 ["PDFs"; "report.pdf"] ["dl"]
           (World fs []) ["dl"; "PDFs"; "report.pdf"] (File "old")).
  - by vm_compute.
  - right. intros n E. by apply (f_equal length) in E.
Defined.

(** A live run loses no regular file of the root, whatever its
    outcome: afterwards the file is where it was, or it sits with the
    same content in the folder of its name, under a name that was free
    before the run: its own, or its stem, a counter and its suffix. *)
Theorem organize_live_no_file_lost (fuel : nat) (entries : list string)
    (downloads : list string) (w : world) (n data : string) :
  files w !! (downloads /: n) = Some (File data) →
  let fs' := files (snd (organize fuel entries downloads false w)) in
  fs' !! (downloads /: n) = Some (File data) ∨
  ∃ n', fs' !! (downloads /: folder_name_of [n] /: n') = Some (File data) ∧
        files w !! (downloads /: folder_name_of [n] /: n') = None ∧
        (n' = n ∨
         ∃ i, (1 ≤ i)%nat ∧
              n' = Path.stem [n] +:+ " (" +:+ pretty i +:+ ")"
                   +:+ Path.suffix [n]).
Proof.
  intros Hn fs'.
  destruct (organize_live_kept downloads fuel entries w) as (_ & Hc & _).
  by apply Hc.
Qed.

Lemma organize_live_no_file_lost_witness :
  let fs : gmap (list string) node :=
    list_to_map [ (["dl"], Dir); (["dl"; "Other"], File "blocks the folder");
                  (["dl"; "notes"], File "kept") ] in
  let fs' := files (snd (organize 1 ["notes"; "Other"] ["dl"] false
                           (World fs [])) ) in
  fst (organize 1 ["notes"; "Other"] ["dl"] false (World fs []))
  = Raise NotADirectoryError ∧
  (fs' !! ["dl"; "notes"] = Some (File "kept") ∨
   ∃ n', fs' !! (["dl"] /: folder_name_of ["notes"] /: n') = Some (File "kept") ∧
         fs !! (["dl"] /: folder_name_of ["notes"] /: n') = None ∧
         (n' = "notes" ∨
          ∃ i, (1 ≤ i)%nat ∧
               n' = Path.stem ["notes"] +:+ " (" +:+ pretty i +:+ ")"
                    +:+ Path.suffix ["notes"])).
Proof.
  intros fs fs'. split; [by vm_compute|].
  apply (organize_live_no_file_lost 1 ["notes"; "Other"] ["dl"] (World fs [])
           "notes" "kept").
  by vm_compute.
Defined.

(** Hidden entries are never touched, in either mode and whatever the
    outcome of the run. *)
Theorem organize_hidden_untouched (fuel : nat) (entries : list string)
    (downloads : list string) (dry_run : bool) (w : world) (n : string) :
  Str.startswith "." n = true →
  files (snd (organize fuel entries downloads dry_run w)) !! (downloads /: n)
  = files w !! (downloads /: n).
Proof.
  intros Hn. destruct dry_run.
  - by rewrite organize_dry_files.
  - destruct (organize_live_kept downloads fuel entries w) as (_ & _ & Hh & _).
    by apply Hh.
Qed.

Lemma organize_hidden_untouched_witness :
  let fs : gmap (list string) node :=
    list_to_map [ (["dl"], Dir); (["dl"; ".profile.txt"], File "mine");
                  (["dl"; "a.txt"], File "text") ] in
  files (snd (organize 1 [".profile.txt"; "a.txt"] ["dl"] false (World fs [])))
    !! ["dl"; ".profile.txt"] = Some (File "mine").
Proof.
  intros fs.
  etrans;
    [apply (organize_hidden_untouched 1 [".profile.txt"; "a.txt"] ["dl"] false
              (World fs []) ".profile.txt"); by vm_compute
    |by vm_compute].
Defined.



(** ** Well-formedness *)

Section wf_kept.

Variable downloads : list string.

Lemma wf_insert (fs : gmap (list string) node) (p : list string) (x : node) :
  FS.wf fs → fs !! p = None → fs !! Path.parent p = Some Dir →
  FS.wf (<[p := x]> fs).
Proof.
  intros Hwf Hp Hparent q [y Hq] Hne.
  assert (∀ q', fs !! q' = Some Dir → <[p := x]> fs !! q' = Some Dir) as Hdir.
  { intros q' Hq'. rewrite lookup_insert_ne; [done|]. congruence. }
  destruct (decide (p = q)) as [<-|Hpq]; [by apply Hdir|].
  rewrite lookup_insert_ne in Hq by done.
  apply Hdir, Hwf; [by eexists|done].
Qed.

Lemma wf_delete_file (fs : gmap (list string) node) (p : list string)
    (data : string) :
  FS.wf fs → fs !! p = Some (File data) → FS.wf (delete p fs).
Proof.
  intros Hwf Hp q [y Hq] Hne.
  destruct (decide (p = q)) as [<-|Hpq]; [by rewrite lookup_delete_eq in Hq|].
  rewrite lookup_delete_ne in Hq by done.
  assert (fs !! Path.parent q = Some Dir) as Hparent.
  { apply Hwf; [by eexists|done]. }
  rewrite lookup_delete_ne; [done|]. congruence.
Qed.

Lemma wf_moved (fs : gmap (list string) node) (folder name name' data : string) :
  FS.wf fs →
  fs !! downloads = Some Dir →
  fs !! (downloads /: name) = Some (File data) →
  fs !! (downloads /: folder) = None ∨ fs !! (downloads /: folder) = Some Dir →
  fs !! (downloads /: folder /: name') = None →
  FS.wf (moved downloads fs folder name name' data).
Proof.
  intros Hwf Hroot Hitem Hdir Hfree. unfold moved.
  assert (downloads /: folder ≠ downloads /: name) as Hne.
  { intros E. rewrite E in Hdir. destruct Hdir; congruence. }
  assert (FS.wf (<[downloads /: folder := Dir]> fs)) as Hwf1.
  { destruct Hdir as [Hd|Hd]; [|by rewrite insert_id].
    apply wf_insert; [done|done|by rewrite parent_child]. }
  apply wf_insert.
  - eapply wf_delete_file; [done|]. by rewrite lookup_insert_ne.
  - rewrite lookup_delete_ne by apply child_ne_grandchild.
    by rewrite lookup_insert_ne by apply child_ne_grandchild.
  - rewrite parent_child, lookup_delete_ne by done.
    by rewrite lookup_insert_eq.
Qed.

Lemma for_each_live_wf (fuel : nat) (entries : list string) (w : world) :
  files w !! downloads = Some Dir →
  FS.wf (files w) →
  FS.wf (files (snd (for_each entries (organize_item fuel downloads false) w))).
Proof.
  revert w. induction entries as [|name rest IH]; intros w Hroot Hwf; [done|].
  simpl. run.
  pose proof (organize_item_live_kept downloads fuel name w Hroot) as Hkept.
  pose proof (organize_item_live_outcome downloads fuel name w Hroot) as Hout.
  cbv zeta in Hout.
  assert (FS.wf (files (snd (organize_item fuel downloads false name w))))
    as Hwf1.
  { destruct Hout as [->|[[Hnone ->]|(data & name' & _ & Hitem & Hdir & Hfree
                                       & _ & _ & ->)]]; [done| |].
    - apply wf_insert; [done|done|by rewrite parent_child].
    - by apply wf_moved. }
  destruct (organize_item fuel downloads false name w) as [[[]| |] w1];
    cbn [snd] in *; try done.
  apply IH; [|done]. apply (proj1 Hkept); auto.
Qed.

End wf_kept.

(** A live run keeps the filesystem well formed, whatever its
    outcome: a folder is there before anything is moved into it, and
    nothing is left below a path that went away. *)
Theorem organize_live_wf (fuel : nat) (entries : list string)
    (downloads : list string) (w : world) :
  FS.wf (files w) →
  FS.wf (files (snd (organize fuel entries downloads false w))).
Proof.
  intros Hwf. unfold organize, FS.path_exists, FS.is_dir. run.
  destruct (files w !! downloads) as [[|]|] eqn:Hroot; cbn [negb orb]; run;
    try done.
  match goal with |- context [for_each ?l ?b ?w0] =>
    pose proof (for_each_live_wf downloads fuel l w0 Hroot Hwf) as Hloop;
    destruct (for_each l b w0) as [[[]| |] w1]
  end; done.
Qed.

Lemma organize_live_wf_witness :
  let fs : gmap (list string) node :=
    list_to_map [ ([], Dir); (["dl"], Dir); (["dl"; "a.txt"], File "text");
                  (["dl"; "b.jpg"], File "image") ] in
  FS.wf (files (snd (organize 1 ["b.jpg"; "a.txt"] ["dl"] false (World fs [])))).
Proof.
  intros fs.
  apply (organize_live_wf 1 ["b.jpg"; "a.txt"] ["dl"] (World fs [])).
  apply wf_check. by vm_compute.
Defined.

(** ** Live runs that return *)

Section live_returns.

Variable downloads : list string.

(** A live run that returned 0 found the root a directory and took its
    loop to the end. *)
Lemma organize_live_Ret0 (fuel : nat) (entries : list string) (w w1 : world) :
  organize fuel entries downloads false w = (Ret 0%Z, w1) →
  files w !! downloads = Some Dir ∧
  ∃ w2, for_each entries (organize_item fuel downloads false)
          (World (files w)
             (console w ++ [(stdout, "Organizing: " +:+ Path.str downloads)]))
        = (Ret tt, w2) ∧
        files w1 = files w2.
Proof.
  unfold organize, FS.path_exists, FS.is_dir. run.
  destruct (files w !! downloads) as [[|]|] eqn:Hroot; cbn [negb orb]; run;
    try done.
  match goal with |- context [for_each ?l ?b ?w0] =>
    destruct (for_each l b w0) as [[[]| |] w2] eqn:Hloop; try done
  end.
  intros [= <-]. split; [done|]. by exists w2.
Qed.

End live_returns.

(** After a live run that returned 0, every visible regular file the
    root held sits in the folder of its name, with its content, under a
    name that was free before the run (its own, or its stem, a counter
    and its suffix), and is no regular file of the root any more. *)
Theorem organize_live_relocates (fuel : nat) (entries : list string)
    (downloads : list string) (w w1 : world) (n data : string) :
  FS.listing (files w) downloads entries →
  organize fuel entries downloads false w = (Ret 0%Z, w1) →
  files w !! (downloads /: n) = Some (File data) →
  Str.startswith "." n = false →
  (∀ data', files w1 !! (downloads /: n) ≠ Some (File data')) ∧
  ∃ n', files w1 !! (downloads /: folder_name_of [n] /: n') = Some (File data) ∧
        files w !! (downloads /: folder_name_of [n] /: n') = None ∧
        (n' = n ∨
         ∃ i, (1 ≤ i)%nat ∧
              n' = Path.stem [n] +:+ " (" +:+ pretty i +:+ ")"
                   +:+ Path.suffix [n]).
Proof.
  intros [_ Hlist] Hrun Hn Hvis.
  pose proof (organize_live_kept downloads fuel entries w) as (_ & Hc & _).
  rewrite Hrun in Hc. cbn [snd] in Hc.
  apply organize_live_Ret0 in Hrun as (Hroot & w2 & Hloop & Hfiles).
  apply for_each_live_loose in Hloop as [_ Hloose]; cbn [files]; [|done|].
  2:{ intros m d Hm _. apply Hlist. by rewrite Hm. }
  rewrite <- Hfiles in Hloose.
  assert (∀ data', files w1 !! (downloads /: n) ≠ Some (File data')) as Hgone.
  { intros data' Hstill. by apply Hloose, not_elem_of_nil in Hstill. }
  split; [done|].
  destruct (Hc n data Hn) as [Hstay|Hmoved]; [by apply Hgone in Hstay|done].
Qed.

Lemma organize_live_relocates_witness :
  let fs : gmap (list string) node :=
    list_to_map [ (["dl"], Dir); (["dl"; "report.pdf"], File "new");
                  (["dl"; "PDFs"], Dir);
                  (["dl"; "PDFs"; "report.pdf"], File "old") ] in
  let w1 := snd (organize 1 ["report.pdf"; "PDFs"] ["dl"] false (World fs [])) in
  (∀ data', files w1 !! ["dl"; "report.pdf"] ≠ Some (File data')) ∧
  ∃ n', files w1 !! (["dl"] /: folder_name_of ["report.pdf"] /: n')
        = Some (File "new").
Proof.
  intros fs w1.
  destruct (organize_live_relocates 1 ["report.pdf"; "PDFs"] ["dl"]
              (World fs []) w1 "report.pdf" "new")
    as (Hgone & n' & Hthere & _).
  - apply listing_check; apply (bool_decide_unpack _); by vm_compute.
  - by vm_compute.
  - by vm_compute.
  - reflexivity.
  - split; [exact Hgone|]. by exists n'.
Defined.

(** ** When a live run goes through *)

Section live_succeeds.

Variable downloads : list string.

Lemma size_moved (fs : gmap (list string) node) (folder name name' data : string) :
  is_Some (fs !! (downloads /: name)) →
  downloads /: folder ≠ downloads /: name →
  (size (moved downloads fs folder name name' data) ≤ S (size fs))%nat.
Proof.
  intros [x Hx] Hne. unfold moved.
  pose proof (map_size_insert (downloads /: folder /: name')
                (File data)
                (delete (downloads /: name) (<[downloads /: folder := Dir]> fs))).
  pose proof (map_size_delete (downloads /: name)
                (<[downloads /: folder := Dir]> fs)).
  pose proof (map_size_insert (downloads /: folder) Dir fs).
  rewrite lookup_insert_ne, Hx in * by done.
  repeat match goal with
         | H : context [match ?o with _ => _ end] |- _ => destruct o
         end; unfold id in *; lia.
Qed.

(** The condition that lets every round go through: the root is a
    directory, what is still to be processed is there, no folder name
    is taken by a regular file, and the fuel covers the entries the
    rounds may add. *)
Lemma for_each_live_succeeds (fuel : nat) (entries : list string) (w : world) :
  files w !! downloads = Some Dir →
  NoDup entries →
  (∀ n, n ∈ entries → is_Some (files w !! (downloads /: n))) →
  (∀ f data, f ∈ folder_names → files w !! (downloads /: f) ≠ Some (File data)) →
  (size (files w) + length entries < fuel)%nat →
  ∃ w1, for_each entries (organize_item fuel downloads false) w = (Ret tt, w1).
Proof.
  revert w. induction entries as [|name rest IH];
    intros w Hroot Hnd Hthere Hfolders Hfuel; [by eexists|].
  apply NoDup_cons in Hnd as [Hfresh Hnd].
  destruct (Hthere name) as [x Hname]; [by left|].
  assert (∀ n, n ∈ rest → is_Some (files w !! (downloads /: n))) as Hrest.
  { intros n Hn. apply Hthere. by right. }
  destruct x as [data|].
  2:{ rewrite (for_each_step _ _ _ w w) by (by apply organize_item_dir).
      apply IH; try done. simpl in Hfuel. lia. }
  destruct (Str.startswith "." name) eqn:Hvis.
  { rewrite (for_each_step _ _ _ w w) by (by apply organize_item_hidden).
    apply IH; try done. simpl in Hfuel. lia. }
  set (folder := folder_name_of [name]).
  assert (files w !! (downloads /: folder) = None ∨
          files w !! (downloads /: folder) = Some Dir) as Hdir.
  { destruct (files w !! (downloads /: folder)) as [[d|]|] eqn:E; auto.
    destruct (Hfolders folder d); [apply folder_name_in_names|done]. }
  assert (downloads /: folder ≠ downloads /: name) as Hne.
  { intros E. rewrite E in Hdir. destruct Hdir; congruence. }
  destruct (unique_target_is_Some (<[downloads /: folder := Dir]> (files w))
              (downloads /: folder) name fuel) as [tp Htp].
  { pose proof (map_size_insert (downloads /: folder) Dir (files w)).
    simpl in Hfuel.
    destruct (files w !! (downloads /: folder)); unfold id in *; lia. }
  destruct (unique_target_child _ _ _ _ _ Htp) as [name' ->].
  pose proof (unique_target_fresh _ _ _ _ _ Htp) as Hfree.
  erewrite for_each_step
    by (by eapply (organize_item_live_move downloads _ name name' folder data)).
  apply IH; cbn [files].
  - unfold moved. rewrite lookup_insert_ne by path_ne.
    rewrite lookup_delete_ne by path_ne.
    by rewrite lookup_insert_ne by path_ne.
  - done.
  - intros n Hn. unfold moved.
    rewrite lookup_insert_ne by apply not_eq_sym, child_ne_grandchild.
    rewrite lookup_delete_ne
      by (intros E%(inj (Path.child downloads)); congruence).
    destruct (decide (downloads /: folder = downloads /: n)) as [<-|Hne'].
    + by rewrite lookup_insert_eq.
    + rewrite lookup_insert_ne by done. by apply Hrest.
  - intros f d Hf. unfold moved.
    rewrite lookup_insert_ne by apply not_eq_sym, child_ne_grandchild.
    destruct (decide (downloads /: name = downloads /: f)) as [<-|Hne'].
    { by rewrite lookup_delete_eq. }
    rewrite lookup_delete_ne by done.
    destruct (decide (downloads /: folder = downloads /: f)) as [<-|Hne''].
    + by rewrite lookup_insert_eq.
    + rewrite lookup_insert_ne by done. by apply Hfolders.
  - assert (size (moved downloads (files w) folder name name' data)
            ≤ S (size (files w)))%nat
      by (apply size_moved; [by eexists|done]).
    simpl in Hfuel. lia.
Qed.

End live_succeeds.

(** A live run over a listing of an existing root returns 0, provided
    no regular file of the root bears the name of one of the nine
    folders and the fuel covers the size of the filesystem and the
    number of entries: a regular file in the place of a folder is all
    that can make the run raise. *)
Theorem organize_live_succeeds (fuel : nat) (entries : list string)
    (downloads : list string) (w : world) :
  files w !! downloads = Some Dir →
  FS.listing (files w) downloads entries →
  (∀ f data, f ∈ folder_names → files w !! (downloads /: f) ≠ Some (File data)) →
  (size (files w) + length entries < fuel)%nat →
  ∃ w1, organize fuel entries downloads false w = (Ret 0%Z, w1).
Proof.
  intros Hroot [Hnd Hlist] Hfolders Hfuel.
  destruct (for_each_live_succeeds downloads fuel entries
              (World (files w)
                 (console w ++ [(stdout, "Organizing: " +:+ Path.str downloads)])))
    as [[fs1 out1] Hloop]; cbn [files]; try done.
  { intros n Hn. by apply Hlist. }
  eexists. by apply organize_live_run.
Qed.

Lemma organize_live_succeeds_witness :
  let fs : gmap (list string) node :=
    list_to_map [ (["dl"], Dir); (["dl"; "a.txt"], File "1");
                  (["dl"; "a (1).txt"], File "2");
                  (["dl"; "Documents"], Dir);
                  (["dl"; "Documents"; "a.txt"], File "0") ] in
  ∃ w1, organize 9 ["a.txt"; "Documents"; "a (1).txt"] ["dl"] false (World fs [])
        = (Ret 0%Z, w1).
Proof.
  intros fs.
  apply (organize_live_succeeds 9 ["a.txt"; "Documents"; "a (1).txt"] ["dl"]
           (World fs [])).
  - by vm_compute.
  - apply listing_check; apply (bool_decide_unpack _); by vm_compute.
  - intros f data Hf. unfold folder_names in Hf.
    repeat (apply elem_of_cons in Hf as [->|Hf]; [by vm_compute|]).
    by apply elem_of_nil in Hf.
  - vm_compute. lia.
Defined.

(** ** When a live run raises *)

(** A regular file in the place of a folder stops a live run: the
    first entry to be filed under that folder makes the run raise
    [NotADirectoryError], before anything has been changed by that
    round. *)
Theorem organize_live_folder_is_file (fuel : nat) (name : string)
    (rest : list string) (downloads : list string) (w : world)
    (data data' : string) :
  files w !! downloads = Some Dir →
  files w !! (downloads /: name) = Some (File data) →
  Str.startswith "." name = false →
  files w !! (downloads /: folder_name_of [name]) = Some (File data') →
  (size (files w) < fuel)%nat →
  organize fuel (name :: rest) downloads false w
  = (Raise NotADirectoryError,
     World (files w)
       (console w ++ [(stdout, "Organizing: " +:+ Path.str downloads)])).
Proof.
  intros Hroot Hitem Hvis Hfolder Hfuel.
  unfold organize, FS.path_exists, FS.is_dir. run.
  rewrite Hroot. cbn [negb orb]. run.
  change ("" +:+ "Organizing: " +:+ Path.str downloads)
    with ("Organizing: " +:+ Path.str downloads).
  cbn [for_each]. run. unfold organize_item, FS.is_dir, FS.path_exists. run.
  rewrite name_child, Hitem, Hvis, folder_name_of_child, Hfolder.
  cbn [negb]. run. unfold unique_target_now. run.
  destruct (unique_target_is_Some (files w)
              (downloads /: folder_name_of [name]) name fuel Hfuel) as [tp Htp].
  rewrite Htp. run.
  destruct (unique_target_child _ _ _ _ _ Htp) as [name' ->].
  pose proof (unique_target_fresh _ _ _ _ _ Htp) as Hfree.
  unfold shutil_move, FS.is_dir. run. rewrite Hfree. run.
  unfold Os.rename. by rewrite Hitem, parent_child, Hfolder.
Qed.

Lemma organize_live_folder_is_file_witness :
  let fs : gmap (list string) node :=
    list_to_map [ (["dl"], Dir); (["dl"; "Other"], File "no extension") ] in
  organize 3 ["Other"] ["dl"] false (World fs [])
  = (Raise NotADirectoryError, World fs [(stdout, "Organizing: /dl")]).
Proof.
  intros fs.
  apply (organize_live_folder_is_file 3 "Other" [] ["dl"] (World fs [])
           "no extension" "no extension");
    [by vm_compute|by vm_compute|reflexivity|by vm_compute|vm_compute; lia].
Defined.

(** ** Runs with nothing to do *)

(** When every entry is a directory or hidden (an empty root
    included), the run returns 0 in either mode, prints its first and
    last line and leaves the filesystem as it was. *)
Theorem organize_nothing_to_do (fuel : nat) (entries : list string)
    (downloads : list string) (dry_run : bool) (w : world) :
  files w !! downloads = Some Dir →
  (∀ n, n ∈ entries →
        FS.is_dir (files w) (downloads /: n) = true ∨
        Str.startswith "." n = true) →
  organize fuel entries downloads dry_run w
  = (Ret 0%Z,
     World (files w)
       (console w
        ++ [(stdout, (if dry_run then "DRY RUN: " else "") +:+ "Organizing: "
                     +:+ Path.str downloads);
            (stdout, "Done.")])).
Proof.
  intros Hroot Hskip. unfold organize, FS.path_exists, FS.is_dir. run.
  rewrite Hroot. cbn [negb orb]. run.
  rewrite for_each_all_skipped by done. run. by rewrite <- app_assoc.
Qed.

Lemma organize_nothing_to_do_witness :
  let fs : gmap (list string) node :=
    list_to_map [ (["dl"], Dir); (["dl"; "sub"], Dir);
                  (["dl"; ".DS_Store"], File "") ] in
  organize 0 [".DS_Store"; "sub"] ["dl"] true (World fs [])
  = (Ret 0%Z,
     World fs [(stdout, "DRY RUN: Organizing: /dl"); (stdout, "Done.")]).
Proof.
  intros fs.
  apply (organize_nothing_to_do 0 [".DS_Store"; "sub"] ["dl"] true (World fs [])).
  - by vm_compute.
  - intros n Hn.
    apply elem_of_cons in Hn as [->|Hn]; [by right|].
    apply elem_of_cons in Hn as [->|Hn]; [by left|].
    by apply elem_of_nil in Hn.
Defined.

(** ** What simulate mode announces *)

Section announcements.

Variable downloads : list string.

(** One entry that simulate mode deals with: its lines end with the
    announcement of the move to the name [unique_target] picks. *)
Lemma organize_item_dry_move (fuel : nat) (name name' : string) (w : world) :
  processed (files w) downloads name = true →
  unique_target fuel (files w) (downloads /: folder_name_of [name]) name
  = Some (downloads /: folder_name_of [name] /: name') →
  ∃ lines,
    organize_item fuel downloads true name w
    = (Ret tt,
       World (files w)
         (console w ++ lines
          ++ [would_move_line name (folder_name_of [name]) name'])).
Proof.
  unfold processed. intros [Hdir Hvis]%andb_prop Htarget.
  apply negb_true_iff in Hdir, Hvis.
  unfold organize_item. run.
  rewrite name_child, Hdir, Hvis, folder_name_of_child.
  destruct (FS.path_exists (files w) (downloads /: folder_name_of [name]));
    cbn [negb]; run; unfold unique_target_now; run; rewrite Htarget; run;
    rewrite relative_str_child; run.
  - exists []. done.
  - eexists [_]. by rewrite <- app_assoc.
Qed.

(** The announcement stays in the output of the loop. *)
Lemma for_each_dry_reports (fuel : nat) (entries : list string) (w : world)
    (n n' : string) :
  (size (files w) < fuel)%nat →
  n ∈ entries →
  processed (files w) downloads n = true →
  unique_target fuel (files w) (downloads /: folder_name_of [n]) n
  = Some (downloads /: folder_name_of [n] /: n') →
  would_move_line n (folder_name_of [n]) n'
  ∈ console (snd (for_each entries (organize_item fuel downloads true) w)).
Proof.
  intros Hfuel. revert w Hfuel.
  induction entries as [|m rest IH]; intros w Hfuel Hn Hproc Htarget.
  { by apply elem_of_nil in Hn. }
  destruct (decide (n = m)) as [<-|Hne].
  - destruct (organize_item_dry_move fuel n n' w Hproc Htarget) as [lines Hstep].
    rewrite (for_each_step _ _ _ _ _ Hstep).
    destruct (proj2 (for_each_dry downloads fuel rest
                       (World (files w)
                          (console w ++ lines
                           ++ [would_move_line n (folder_name_of [n]) n'])))
                Hfuel) as [lines' ->].
    cbn [snd console]. rewrite !elem_of_app. left. right. right.
    apply list_elem_of_here.
  - apply elem_of_cons in Hn as [->|Hn]; [done|].
    destruct (proj2 (organize_item_dry downloads fuel m w) Hfuel)
      as [lines Hstep].
    rewrite (for_each_step _ _ _ _ _ Hstep). by apply IH.
Qed.

End announcements.

(** The announcement stays in the output of the run. *)
Lemma organize_dry_reports (fuel : nat) (entries : list string)
    (downloads : list string) (fs : gmap (list string) node)
    (out : list (stream * string)) (n n' : string) :
  FS.is_dir fs downloads = true →
  (size fs < fuel)%nat →
  n ∈ entries →
  processed fs downloads n = true →
  unique_target fuel fs (downloads /: folder_name_of [n]) n
  = Some (downloads /: folder_name_of [n] /: n') →
  would_move_line n (folder_name_of [n]) n'
  ∈ console (snd (organize fuel entries downloads true (World fs out))).
Proof.
  intros Hroot Hfuel Hn Hproc Htp.
  unfold organize. run.
  assert (FS.path_exists fs downloads = true) as ->.
  { revert Hroot. unfold FS.is_dir, FS.path_exists.
    by destruct (fs !! downloads). }
  rewrite Hroot. cbn [negb orb]. run.
  set (w1 := World fs _).
  pose proof (for_each_dry_reports downloads fuel entries w1 n n' Hfuel Hn
                Hproc Htp) as Hin.
  destruct (proj2 (for_each_dry downloads fuel entries w1) Hfuel)
    as [lines Hloop].
  rewrite Hloop in *. cbn [snd console] in *.
  rewrite elem_of_app. by left.
Qed.

(** Simulate mode announces every entry it deals with, with the
    destination [unique_target] picks for it in the filesystem as it
    is. *)
Theorem simulate_reports_every_entry (fuel : nat) (entries : list string)
    (downloads : list string) (fs : gmap (list string) node)
    (out : list (stream * string)) (n : string) :
  FS.is_dir fs downloads = true →
  (size fs < fuel)%nat →
  n ∈ entries →
  processed fs downloads n = true →
  ∃ n',
    unique_target fuel fs (downloads /: folder_name_of [n]) n
    = Some (downloads /: folder_name_of [n] /: n') ∧
    would_move_line n (folder_name_of [n]) n'
    ∈ console (snd (organize fuel entries downloads true (World fs out))).
Proof.
  intros Hroot Hfuel Hn Hproc.
  destruct (unique_target_is_Some fs (downloads /: folder_name_of [n]) n fuel
              Hfuel) as [tp Htp].
  destruct (unique_target_child _ _ _ _ _ Htp) as [n' ->].
  exists n'. split; [done|]. by apply organize_dry_reports.
Qed.

Lemma simulate_reports_every_entry_witness :
  let fs : gmap (list string) node :=
    list_to_map [ (["dl"], Dir); (["dl"; "report.pdf"], File "new");
                  (["dl"; "PDFs"], Dir);
                  (["dl"; "PDFs"; "report.pdf"], File "old") ] in
  (stdout, "[DRY RUN] Would move: report.pdf -> PDFs/report (1).pdf")
  ∈ console (snd (organize 5 ["PDFs"; "report.pdf"] ["dl"] true (World fs []))).
Proof.
  intros fs.
  destruct (simulate_reports_every_entry 5 ["PDFs"; "report.pdf"] ["dl"] fs []
              "report.pdf") as (n' & Hn' & Hin).
  - by vm_compute.
  - vm_compute. lia.
  - apply list_elem_of_further, list_elem_of_here.
  - by vm_compute.
  - vm_compute in Hn'. injection Hn' as <-. exact Hin.
Defined.

(** For the entry a run starts with, simulate mode announces the move
    the live run makes: the file ends up, with its content, where
    simulate mode said, whatever the live run does afterwards. *)
Theorem simulate_predicts_first_move (fuel : nat) (name : string)
    (rest : list string) (downloads : list string)
    (fs : gmap (list string) node) (out : list (stream * string))
    (data : string) :
  fs !! downloads = Some Dir →
  fs !! (downloads /: name) = Some (File data) →
  Str.startswith "." name = false →
  fs !! (downloads /: folder_name_of [name]) = None ∨
  fs !! (downloads /: folder_name_of [name]) = Some Dir →
  (size fs < fuel)%nat →
  ∃ name',
    would_move_line name (folder_name_of [name]) name'
    ∈ console (snd (organize fuel (name :: rest) downloads true (World fs out))) ∧
    files (snd (organize fuel (name :: rest) downloads false (World fs out)))
      !! (downloads /: folder_name_of [name] /: name') = Some (File data).
Proof.
  intros Hroot Hitem Hvis Hdir Hfuel.
  assert (FS.is_dir fs downloads = true) as Hisdir.
  { unfold FS.is_dir. by rewrite Hroot. }
  assert (processed fs downloads name = true) as Hproc.
  { unfold processed, FS.is_dir. by rewrite Hitem, Hvis. }
  destruct (unique_target_is_Some fs (downloads /: folder_name_of [name]) name
              fuel Hfuel) as [tp Htarget].
  destruct (unique_target_child _ _ _ _ _ Htarget) as [name' ->].
  exists name'. split.
  { apply organize_dry_reports; try done. apply list_elem_of_here. }
  assert (unique_target fuel (<[downloads /: folder_name_of [name] := Dir]> fs)
            (downloads /: folder_name_of [name]) name
          = Some (downloads /: folder_name_of [name] /: name')) as Htarget'.
  { by rewrite unique_target_insert_dir. }
  unfold organize, FS.path_exists. run. rewrite Hroot, Hisdir.
  cbn [negb orb]. run.
  erewrite for_each_step
    by (by eapply (organize_item_live_move downloads _ name name' _ data)).
  match goal with |- context [for_each ?l ?b ?w0] =>
    pose proof (for_each_live_kept downloads fuel l w0) as Hkept;
    destruct (for_each l b w0) as [[[]| |] w1]
  end; cbn [files snd] in *.
  all: destruct Hkept as [Ha _];
    [unfold moved; rewrite lookup_insert_ne by path_ne;
     rewrite lookup_delete_ne by path_ne;
     by rewrite lookup_insert_ne by path_ne|].
  all: apply Ha;
    [unfold moved; by rewrite lookup_insert_eq
    |right; intros n; apply not_eq_sym, child_ne_grandchild].
Qed.

Lemma simulate_predicts_first_move_witness :
  let fs : gmap (list string) node :=
    list_to_map [ (["dl"], Dir); (["dl"; "report.pdf"], File "new");
                  (["dl"; "notes"], File "plain");
                  (["dl"; "PDFs"], Dir);
                  (["dl"; "PDFs"; "report.pdf"], File "old") ] in
  ∃ name',
    would_move_line "report.pdf" (folder_name_of ["report.pdf"]) name'
    ∈ console (snd (organize 6 ["report.pdf"; "notes"; "PDFs"] ["dl"] true
                      (World fs []))) ∧
    files (snd (organize 6 ["report.pdf"; "notes"; "PDFs"] ["dl"] false
                  (World fs [])))
      !! (["dl"] /: folder_name_of ["report.pdf"] /: name') = Some (File "new").
Proof.
  intros fs.
  apply (simulate_predicts_first_move 6 "report.pdf" ["notes"; "PDFs"] ["dl"]
           fs [] "new");
    [by vm_compute|by vm_compute|reflexivity|right; by vm_compute
    |vm_compute; lia].
Defined.

(** ** Renaming and classification *)

Section keeps_folder.

Lemma ends_with_cons (c a b : ascii) (s : string) :
  ends_with c (String a (String b s)) = ends_with c (String b s).
Proof. reflexivity. Qed.

Lemma ends_with_app (c x : ascii) (a t : string) :
  ends_with c (a +:+ String x t) = ends_with c (String x t).
Proof.
  induction a as [|y a IH]; [done|].
  rewrite string_app_cons.
  destruct a as [|z a]; [done|].
  rewrite string_app_cons in *. by rewrite ends_with_cons.
Qed.

(** A non-empty final segment ends as the whole string does. *)
Lemma ends_with_tail (c : ascii) (k : nat) (s : string) :
  (k < String.length s)%nat →
  ends_with c (substring k (String.length s - k) s) = ends_with c s.
Proof.
  revert k. induction s as [|a s IH]; intros k Hk; simpl in Hk; [lia|].
  destruct k as [|k].
  - by rewrite Nat.sub_0_r, substring_all.
  - change (substring (S k) (String.length (String a s) - S k) (String a s))
      with (substring k (String.length s - k) s).
    rewrite IH by lia. destruct s; [simpl in Hk; lia|done].
Qed.

Lemma lower_ascii_paren (a : ascii) :
  Ascii.eqb (Str.lower_ascii a) ")" = Ascii.eqb a ")".
Proof. by destruct a as [[] [] [] [] [] [] [] []]. Qed.

Lemma ends_with_step (c a : ascii) (s : string) :
  ends_with c (String a s)
  = if Str.truthy s then ends_with c s else Ascii.eqb a c.
Proof. by destruct s. Qed.

Lemma ends_with_lower (s : string) :
  ends_with ")" (Str.lower s) = ends_with ")" s.
Proof.
  induction s as [|s IH|a s K IH] using lower_ind; [done| |].
  - rewrite lower_kelvin, !ends_with_step, truthy_lower, IH.
    simpl. by destruct s.
  - rewrite lower_cons, !ends_with_step, truthy_lower, IH,
      lower_ascii_paren by done.
    done.
Qed.

(** No extension of the table ends with a closing parenthesis. *)
Lemma TYPES_keys_no_paren : map_Forall (λ k _, ends_with ")" k = false) TYPES.
Proof. apply map_Forall_to_list. by vm_compute; repeat constructor. Qed.

(** A name that ends with a closing parenthesis is filed under the
    default folder. *)
Lemma folder_name_of_paren (name : string) :
  ends_with ")" name = true → folder_name_of [name] = DEFAULT_FOLDER.
Proof.
  intros Hend. unfold folder_name_of, ext_of.
  destruct (Str.truthy (Path.suffix [name])) eqn:Hsuf; [|done].
  destruct (Str.truthy (Str.lower _)) eqn:Hext; [|done].
  unfold folder_for_ext.
  destruct (TYPES !! _) as [v|] eqn:E; [exfalso|done].
  apply TYPES_keys_no_paren in E. rewrite !ends_with_lower in E.
  rewrite truthy_lower in Hext.
  revert Hsuf Hext E.
  unfold Path.suffix, Path.name. simpl.
  pose proof (rfind_lt "." name) as Hlt. unfold Str.len in *.
  destruct (_ && _) eqn:Hcond; [|done].
  apply andb_prop in Hcond as [H0%Z.ltb_lt H1%Z.ltb_lt].
  assert (ends_with ")" (Str.slice_from (Str.rfind "." name) name) = true)
    as Hs.
  { unfold Str.slice_from. rewrite ends_with_tail by lia. done. }
  generalize dependent (Str.slice_from (Str.rfind "." name) name).
  intros suffix Hs _ Hext E. unfold Str.slice_from in *.
  destruct suffix as [|a [|b s]]; [done|done|].
  rewrite ends_with_tail in E by (simpl; lia). congruence.
Qed.

Lemma folder_name_of_no_suffix (name : string) :
  Path.suffix [name] = "" → folder_name_of [name] = DEFAULT_FOLDER.
Proof. intros H. unfold folder_name_of, ext_of. by rewrite H. Qed.

End keeps_folder.

(** Whatever name [unique_target] picks, the file is filed under the
    same folder as under its own name. *)
Theorem unique_target_keeps_folder (fuel : nat)
    (fs : gmap (list string) node) (dest_dir : list string) (name : string)
    (p : list string) :
  unique_target fuel fs dest_dir name = Some p →
  folder_name_of p = folder_name_of (dest_dir /: name).
Proof.
  intros Hp. destruct (unique_target_child _ _ _ _ _ Hp) as [name' ->].
  apply unique_target_shape in Hp as [->|(i & _ & ->)]; [done|].
  destruct (decide (Path.suffix [name] = "")) as [Hnone|Hsome].
  - rewrite !folder_name_of_child, (folder_name_of_no_suffix name Hnone).
    apply folder_name_of_paren. rewrite Hnone.
    change (")" +:+ "") with ")". rewrite <- !string_app_assoc.
    by rewrite ends_with_app.
  - rewrite !folder_name_of_child. unfold folder_name_of, ext_of.
    by rewrite (suffix_renamed name i Hsome).
Qed.

Lemma unique_target_keeps_folder_witness :
  let fs : gmap (list string) node :=
    list_to_map [ (["d"], Dir); (["d"; "notes."], File "1") ] in
  unique_target 1 fs ["d"] "notes." = Some ["d"; "notes. (1)"] ∧
  folder_name_of ["d"; "notes. (1)"] = folder_name_of ["d"; "notes."].
Proof.
  intros fs. split; [by vm_compute|].
  apply (unique_target_keeps_folder 1 fs ["d"] "notes." ["d"; "notes. (1)"]).
  by vm_compute.
Defined.
